(** * CV / job-description matching service: the analysis pipeline

    A shallow embedding of the TypeScript sources

    - [src/utils/rateLimiter.ts]    (class [RateLimiter])
    - [src/services/pdfService.ts]  (class [PDFService])
    - [src/services/aiService.ts]   (class [AIService])
    - [src/routers/analysisRouter.ts] (procedures [analyzeCandidateMatch],
      [healthCheck], [getConfiguration])
    - [src/server.ts]               (route [POST /api/analyze])

    followed by the properties of the specification that were checked
    against it.  The first part of the file holds the model, the second the
    theorems. *)

From Stdlib Require Import ZArith QArith Strings.Byte String Ascii Lia.
From stdpp Require Import base numbers list strings gmap pretty.

Set Default Proof Using "Type".
Open Scope Z_scope.

(* ===================================================================== *)
(** * Part I.  The model                                                  *)
(* ===================================================================== *)

(** ** Thrown values

    The code throws [Error], [TRPCError] (tRPC) and receives [AxiosError]
    (axios) and engine errors ([SyntaxError], [TypeError]); the handlers
    only look at the class of the value ([instanceof]), at its [message]
    and, for axios, at [response.status] and [response.data.message]. *)

Inductive TRPCCode := BAD_REQUEST | INTERNAL_SERVER_ERROR.

Inductive Exn :=
| PlainError (message : string)
    (* [new Error(m)], and the engine's [SyntaxError] / [TypeError] *)
| TRPCError (code : TRPCCode) (message : string)
| AxiosError (status : option Z) (dataMessage : option string) (message : string)
    (* [error.response?.status], [error.response?.data?.message], [error.message] *)
| NonError.
    (* a thrown value that is not an instance of [Error] *)

(** [error instanceof Error ? error.message : dflt] *)
Definition message_or (dflt : string) (e : Exn) : string :=
  match e with
  | PlainError m => m
  | TRPCError _ m => m
  | AxiosError _ _ m => m
  | NonError => dflt
  end.

(** ** The collaborators outside the repository

    [pdf-parse], [axios], the clock and the process environment are not
    code of the repository; they are taken as parameters. *)

(** A JavaScript string as its sequence of UTF-16 code units.  Texts that
    are inspected character by character (document text, model replies)
    are [jsstring]s; messages and map keys, which are only concatenated
    and compared, are [string]s. *)
Abbreviation jsstring := (list N).

Definition code_unit (a : ascii) : N := N_of_ascii a.

Fixpoint js (s : string) : jsstring :=
  match s with
  | EmptyString => []
  | String a r => code_unit a :: js r
  end.

(** What [pdf(buffer)] resolves to, or the value it rejects with. *)
Record PdfData := {
  data_text : jsstring;
  data_numpages : Z
}.

(** The request sent by [axios.post]: the URL, the [Authorization] header
    when there is one, and the prompt (the generation parameters are
    constants). *)
Record PostRequest := {
  post_url : string;
  post_authorization : option string;
  post_prompt : jsstring
}.

(** What [axios.post] resolves to, reduced to what the caller reads:
    [response.data.candidates?.[0]?.content?.parts?.[0]?.text], [None]
    when the path leads to [undefined].  (A response without a body
    object is outside the model.) *)
Definition PostResponse := option jsstring.

(** An external call that was started. *)
Inductive Call :=
| CallPdf (buffer : list byte)
| CallPost (request : PostRequest).

(** ** The mutable state of the process *)

Record RateLimitWindow := { requests : list Z }.

Record World := {
  windows : gmap string RateLimitWindow;
    (* the field [windows] of the singleton [rateLimiter] *)
  ticks : nat;
    (* how many times the clock has been read *)
  calls : list Call
    (* the external calls started so far, oldest first *)
}.

(** ** Computations: state and exceptions

A computation takes the world to an outcome and a new world; a thrown
value leaves the changes made before it in place.  Output to the console
is not part of the world. *)

Inductive Outcome (A : Type) :=
| Returned (a : A)
| Thrown (e : Exn).
Arguments Returned {A} a.
Arguments Thrown {A} e.

Definition M (A : Type) : Type := World -> Outcome A * World.

Definition ret {A} (a : A) : M A := fun w => (Returned a, w).

Definition throw {A} (e : Exn) : M A := fun w => (Thrown e, w).

Definition bind {A B} (m : M A) (f : A -> M B) : M B :=
  fun w =>
    match m w with
    | (Returned a, w') => f a w'
    | (Thrown e, w') => (Thrown e, w')
    end.

Definition try_catch {A} (m : M A) (handler : Exn -> M A) : M A :=
  fun w =>
    match m w with
    | (Returned a, w') => (Returned a, w')
    | (Thrown e, w') => handler e w'
    end.

Notation "x <- m ;; k" := (bind m (fun x => k))
  (at level 100, m at level 99, right associativity).
Notation "m ;;; k" := (bind m (fun _ => k))
  (at level 100, right associativity).

Definition get_windows : M (gmap string RateLimitWindow) :=
  fun w => (Returned (windows w), w).

Definition set_window (identifier : string) (rs : list Z) : M unit :=
  fun w =>
    (Returned tt,
     {| windows := <[identifier := {| requests := rs |}]> (windows w);
        ticks := ticks w;
        calls := calls w |}).

Definition log_call (c : Call) : M unit :=
  fun w =>
    (Returned tt,
     {| windows := windows w; ticks := ticks w; calls := calls w ++ [c] |}).

(** [await] on a pending operation: the request is suspended and the
    event loop serves the other requests of the process, which share the
    world; [others] is what they do to it before this one resumes. *)
Definition suspend (others : World -> World) : M unit :=
  fun w => (Returned tt, others w).

(** Run [m] [n] times in a row and collect the results. *)
Fixpoint repeatM {A} (n : nat) (m : M A) : M (list A) :=
  match n with
  | O => ret []
  | S n' => a <- m ;; r <- repeatM n' m ;; ret (a :: r)
  end.

(** ** [src/utils/rateLimiter.ts] *)

Module RateLimiter.

Definition minuteLimit : Z := 20.
Definition hourLimit : Z := 300.
Definition minuteWindow : Z := 60 * 1000.
Definition hourWindow : Z := 60 * 60 * 1000.

Record CheckResult := {
  allowed : bool;
  error : option string
}.

Record Remaining := {
  minute : Z;
  hour : Z
}.

Section WithClock.
(** [clock n] is the value of the [n]-th reading of [Date.now()]. *)
Variable clock : nat -> Z.

Definition Date_now : M Z :=
  fun w =>
    (Returned (clock (ticks w)),
     {| windows := windows w; ticks := S (ticks w); calls := calls w |}).

Definition cleanOldRequests (requests : list Z) (windowMs : Z) : M (list Z) :=
  now <- Date_now ;;
  ret (filter (fun timestamp => now - timestamp < windowMs) requests).

Definition canMakeRequest (identifier : string) : M CheckResult :=
  now <- Date_now ;;
  ws <- get_windows ;;
  (match ws !! identifier with
   | None => set_window identifier []
   | Some _ => ret tt
   end) ;;;
  ws <- get_windows ;;
  let window := default {| requests := [] |} (ws !! identifier) in
  (* Clean old requests *)
  pruned <- cleanOldRequests (requests window) hourWindow ;;
  set_window identifier pruned ;;;
  recentMinuteRequests <- cleanOldRequests pruned minuteWindow ;;
  let recentHourRequests := pruned in
  (* Check minute limit *)
  if bool_decide (minuteLimit <= Z.of_nat (length recentMinuteRequests)) then
    ret {| allowed := false;
           error := Some ("Rate limit exceeded: " +:+ pretty minuteLimit
                          +:+ " requests per minute") |}
  (* Check hour limit *)
  else if bool_decide (hourLimit <= Z.of_nat (length recentHourRequests)) then
    ret {| allowed := false;
           error := Some ("Rate limit exceeded: " +:+ pretty hourLimit
                          +:+ " requests per hour") |}
  else
    (* Record the request *)
    set_window identifier (pruned ++ [now]) ;;;
    ret {| allowed := true; error := None |}.

Definition getRemainingRequests (identifier : string) : M Remaining :=
  ws <- get_windows ;;
  match ws !! identifier with
  | None => ret {| minute := minuteLimit; hour := hourLimit |}
  | Some window =>
      now <- Date_now ;;
      recentMinuteRequests <- cleanOldRequests (requests window) minuteWindow ;;
      recentHourRequests <- cleanOldRequests (requests window) hourWindow ;;
      ret {| minute := Z.max 0 (minuteLimit - Z.of_nat (length recentMinuteRequests));
             hour := Z.max 0 (hourLimit - Z.of_nat (length recentHourRequests)) |}
  end.

End WithClock.

(** The default argument [identifier = 'default']. *)
Definition default_identifier : string := "default".

End RateLimiter.

(** [haystack.includes(needle)] on messages (Jest's [toContain]). *)
Fixpoint includes (needle haystack : string) : bool :=
  String.prefix needle haystack ||
  match haystack with
  | EmptyString => false
  | String _ rest => includes needle rest
  end.

(** ** JavaScript strings: white space and trimming *)

Module JSString.
Local Open Scope N_scope.

Definition TAB : N := 9.
Definition LF : N := 10.
Definition CR : N := 13.
Definition SPACE : N := 32.
Definition QUOTE : N := 34.

(** The class [\s] of a regular expression, which is also what
    [String.prototype.trim] removes: WhiteSpace and LineTerminator of
    ECMA-262 (TAB, VT, FF, SP, NBSP, ZWNBSP, the Unicode space
    separators, LF, CR, LS, PS). *)
Definition isWhiteSpace (c : N) : bool :=
  (9 <=? c) && (c <=? 13)
  || (c =? 32) || (c =? 160) || (c =? 5760)
  || (8192 <=? c) && (c <=? 8202)
  || (c =? 8232) || (c =? 8233) || (c =? 8239) || (c =? 8287)
  || (c =? 12288) || (c =? 65279).

Fixpoint dropWhile {A} (p : A -> bool) (l : list A) : list A :=
  match l with
  | [] => []
  | x :: r => if p x then dropWhile p r else l
  end.

Definition trimStart (s : jsstring) : jsstring := dropWhile isWhiteSpace s.
Fixpoint trimEnd (s : jsstring) : jsstring :=
  match s with
  | [] => []
  | c :: r =>
      match trimEnd r with
      | [] => if isWhiteSpace c then [] else [c]
      | kept => c :: kept
      end
  end.

(** [s.trim()] *)
Definition trim (s : jsstring) : jsstring := trimEnd (trimStart s).

(** A string literal with double quotes around it. *)
Definition quoted (s : string) : jsstring := QUOTE :: js s ++ [QUOTE].

End JSString.

(** ** [src/services/pdfService.ts] *)

Module PDFService.
Import JSString.
Local Open Scope N_scope.

Record ProcessedPDFContent := {
  text : jsstring;
  pageCount : Z
  (* the field [metadata] is never read in the repository and is left out *)
}.

Record Validation := {
  isValid : bool;
  error : option string
}.

#[global] Instance byte_eq_dec : EqDecision byte := Byte.byte_eq_dec.

(** The four bytes of ["%PDF"]. *)
Definition pdfMagic : list byte := [x25; x50; x44; x46].

(** [buffer.slice(0, 4).toString()] decodes at most four bytes as UTF-8;
    the decoded string is ["%PDF"] exactly when the slice is the four
    ASCII bytes 25 50 44 46 (a byte above 7f never decodes to an ASCII
    character), so the comparison is made on the bytes. *)
Definition validatePDF (buffer : list byte) : Validation :=
  (* Check if buffer starts with PDF header *)
  let pdfHeader := take 4 buffer in
  if bool_decide (pdfHeader ≠ pdfMagic) then
    {| isValid := false; error := Some "Invalid PDF format" |}
  else
    (* Check file size (10MB limit) *)
    let maxSize := (10 * 1024 * 1024)%Z in
    if bool_decide (Z.of_nat (length buffer) > maxSize)%Z then
      {| isValid := false; error := Some "PDF file too large (max 10MB)" |}
    else
      {| isValid := true; error := None |}.

(** [text.replace(/\r\n|\r|\n/g, ' ')]: every CR LF pair, and every
    other CR or LF, becomes one space. *)
Fixpoint replaceLineBreaks (s : jsstring) : jsstring :=
  match s with
  | [] => []
  | c :: r =>
      if c =? CR then
        SPACE :: match r with
                 | d :: r' => if d =? LF then replaceLineBreaks r'
                              else replaceLineBreaks r
                 | [] => replaceLineBreaks r
                 end
      else if c =? LF then SPACE :: replaceLineBreaks r
      else c :: replaceLineBreaks r
  end.

(** [text.replace(/\s+/g, ' ')]: every maximal run of white space
    becomes one space.  [inRun] tells that the previous character was
    white space, whose run has already been replaced. *)
Fixpoint collapseFrom (inRun : bool) (s : jsstring) : jsstring :=
  match s with
  | [] => []
  | c :: r =>
      if isWhiteSpace c then
        if inRun then collapseFrom true r else SPACE :: collapseFrom true r
      else c :: collapseFrom false r
  end.

Definition collapseWhiteSpace (s : jsstring) : jsstring := collapseFrom false s.

Definition cleanText (text : jsstring) : jsstring :=
  trim (collapseWhiteSpace (replaceLineBreaks text)).

Section WithParser.
(** [pdf(buffer)] of pdf-parse: the data it resolves to, or the value
    it rejects with. *)
Variable pdf : list byte -> Exn + PdfData.

Definition extractText (buffer : list byte) : M ProcessedPDFContent :=
  log_call (CallPdf buffer) ;;;
  match pdf buffer with
  | inr data =>
      ret {| text := data_text data; pageCount := data_numpages data |}
  | inl e =>
      throw (PlainError ("Failed to extract text from PDF: "
                         +:+ message_or "Unknown error" e))
  end.
End WithParser.

End PDFService.

(** ** JavaScript values and [JSON.parse] *)

Module JSON.
Import JSString.
Local Open Scope N_scope.

(** A number is a binary64 value: NaN, an infinity, or a finite value
    kept as the rational it is equal to.  (The sign of zero, which no
    operation of the service observes, is not kept.) *)
Inductive Number :=
| NaN
| Infinite (negative : bool)
| Finite (q : Q).

(** The binary64 value of the real number [q]: the nearest value
    [m * 2 ^ e] with [m < 2 ^ 53] and [-1074 <= e], a tie going to the
    even [m]; an infinity from [2 ^ 1024] on.  This is how [JSON.parse]
    reads a number literal, whatever its length: what is below half the
    least subnormal becomes 0, what is beyond the largest double becomes
    [Infinity]. *)
Definition binary64 (q : Q) : Number :=
  let n := Qnum q in
  let d := Zpos (Qden q) in
  if (n =? 0)%Z then Finite 0
  else
    let a := Z.abs n in
    (* [l] is the integer with [2 ^ l <= a / d < 2 ^ (l + 1)] *)
    let l0 := (Z.log2 a - Z.log2 d)%Z in
    let reaches :=
      if (0 <=? l0)%Z then (d * 2 ^ l0 <=? a)%Z
      else (d <=? a * 2 ^ (- l0))%Z in
    let l := if reaches then l0 else (l0 - 1)%Z in
    let e := Z.max (l - 52) (-1074) in
    (* [a / d] in units of [2 ^ e] *)
    let num := if (0 <=? e)%Z then a else (a * 2 ^ (- e))%Z in
    let den := if (0 <=? e)%Z then (d * 2 ^ e)%Z else d in
    let m0 := (num / den)%Z in
    let r := (num mod den)%Z in
    let m :=
      if (2 * r <? den)%Z then m0
      else if (den <? 2 * r)%Z then (m0 + 1)%Z
      else if Z.even m0 then m0 else (m0 + 1)%Z in
    if (971 <? e)%Z || ((e =? 971)%Z && (2 ^ 53 <=? m)%Z)
    then Infinite (n <? 0)%Z
    else
      let signed := if (n <? 0)%Z then (- m)%Z else m in
      if (0 <=? e)%Z then Finite (inject_Z (signed * 2 ^ e))
      else Finite (Qred (Qmake signed (Z.to_pos (2 ^ (- e))))).

#[warnings="-register-all"]
Inductive Value :=
| Undefined
| Null
| Bool (b : bool)
| Num (n : Number)
| Str (s : jsstring)
| Arr (items : list Value)
| Obj (props : list (jsstring * Value)).
    (* the members in source order, duplicates included *)

(** [ToBoolean] *)
Definition truthy (v : Value) : bool :=
  match v with
  | Undefined | Null => false
  | Bool b => b
  | Num NaN => false
  | Num (Infinite _) => true
  | Num (Finite q) => negb (Qeq_bool q 0)
  | Str s => negb (bool_decide (s = []))
  | Arr _ | Obj _ => true
  end.

(** [a || b] *)
Definition or_else (a b : Value) : Value := if truthy a then a else b.

(** [Array.isArray(v) ? v : []] *)
Definition array_or_empty (v : Value) : list Value :=
  match v with
  | Arr items => items
  | _ => []
  end.

(** The last member named [key]: a later duplicate overwrites an
    earlier one. *)
Fixpoint lookup_member (key : jsstring) (props : list (jsstring * Value))
  : option Value :=
  match props with
  | [] => None
  | (k, v) :: rest =>
      match lookup_member key rest with
      | Some v' => Some v'
      | None => if bool_decide (k = key) then Some v else None
      end
  end.

(** [v.key], for a [key] that no built-in prototype defines (the seven
    keys the service reads): [None] is the [TypeError] of reading a
    property of [null] or [undefined]. *)
Definition get (v : Value) (key : string) : option Value :=
  match v with
  | Undefined | Null => None
  | Obj props => Some (default Undefined (lookup_member (js key) props))
  | Bool _ | Num _ | Str _ | Arr _ => Some Undefined
  end.

(** *** The grammar of ECMA-404 *)

Inductive Parse (A : Type) :=
| Parsed (a : A) (rest : jsstring)
| SyntaxError
| OutOfFuel.
Arguments Parsed {A} a rest.
Arguments SyntaxError {A}.
Arguments OutOfFuel {A}.

Definition isJsonSpace (c : N) : bool :=
  (c =? SPACE) || (c =? TAB) || (c =? LF) || (c =? CR).

Definition skip_ws (s : jsstring) : jsstring := dropWhile isJsonSpace s.

Definition isDigit (c : N) : bool := (48 <=? c) && (c <=? 57).

Definition hexValue (c : N) : option N :=
  if isDigit c then Some (c - 48)
  else if (97 <=? c) && (c <=? 102) then Some (c - 87)
  else if (65 <=? c) && (c <=? 70) then Some (c - 55)
  else None.

(** The escapes of one character after a backslash. *)
Definition simpleEscape (c : N) : option N :=
  if c =? 34 then Some 34          (* double quote *)
  else if c =? 92 then Some 92     (* backslash *)
  else if c =? 47 then Some 47     (* slash *)
  else if c =? 98 then Some 8      (* b: backspace *)
  else if c =? 102 then Some 12    (* f: form feed *)
  else if c =? 110 then Some 10    (* n: line feed *)
  else if c =? 114 then Some 13    (* r: carriage return *)
  else if c =? 116 then Some 9     (* t: tab *)
  else None.

(** The characters of a string after its opening quote, up to the
    closing quote. *)
Fixpoint parse_chars (s : jsstring) : option (jsstring * jsstring) :=
  match s with
  | [] => None
  | c :: r =>
      if c =? QUOTE then Some ([], r)
      else if c =? 92 then
        match r with
        | [] => None
        | e :: r1 =>
            if e =? 117 then
              match r1 with
              | h1 :: h2 :: h3 :: h4 :: r2 =>
                  match hexValue h1, hexValue h2, hexValue h3, hexValue h4 with
                  | Some a, Some b, Some c', Some d =>
                      match parse_chars r2 with
                      | Some (cs, rest) =>
                          Some (((a * 16 + b) * 16 + c') * 16 + d :: cs, rest)
                      | None => None
                      end
                  | _, _, _, _ => None
                  end
              | _ => None
              end
            else
              match simpleEscape e with
              | Some u =>
                  match parse_chars r1 with
                  | Some (cs, rest) => Some (u :: cs, rest)
                  | None => None
                  end
              | None => None
              end
        end
      else if c <? 32 then None
      else
        match parse_chars r with
        | Some (cs, rest) => Some (c :: cs, rest)
        | None => None
        end
  end.

(** The longest prefix of digits, as the number it denotes together
    with how many digits there are, and what follows. *)
Fixpoint digits (acc : Z) (count : nat) (s : jsstring) : Z * nat * jsstring :=
  match s with
  | c :: r =>
      if isDigit c then digits (acc * 10 + Z.of_N (c - 48)) (S count) r
      else (acc, count, s)
  | [] => (acc, count, s)
  end.

(** [int frac? exp?] after the optional minus sign. *)
Definition parse_unsigned (s : jsstring) : option (Q * jsstring) :=
  let int_part :=
    match s with
    | c :: r =>
        if c =? 48 then Some (0%Z, r)
        else if isDigit c then
          let '(n, _, r') := digits 0 0 s in Some (n, r')
        else None
    | [] => None
    end in
  match int_part with
  | None => None
  | Some (n, r) =>
      let frac_part :=
        match r with
        | c :: r1 =>
            if c =? 46 then
              let '(m, k, r2) := digits n 0 r1 in
              match k with
              | O => None
              | _ => Some (m, k, r2)
              end
            else Some (n, O, r)
        | [] => Some (n, O, r)
        end in
      match frac_part with
      | None => None
      | Some (m, k, r2) =>
          let mantissa := (inject_Z m / inject_Z (10 ^ Z.of_nat k))%Q in
          match r2 with
          | c :: r3 =>
              if (c =? 101) || (c =? 69) then
                let '(negative, r4) :=
                  match r3 with
                  | d :: r3' =>
                      if d =? 45 then (true, r3')
                      else if d =? 43 then (false, r3')
                      else (false, r3)
                  | [] => (false, r3)
                  end in
                let '(e, k', r5) := digits 0 0 r4 in
                match k' with
                | O => None
                | _ =>
                    let e' := if negative then (- e)%Z else e in
                    Some (Qred (mantissa * Qpower 10 e')%Q, r5)
                end
              else Some (Qred mantissa, r2)
          | [] => Some (Qred mantissa, r2)
          end
      end
  end.

Definition parse_number (s : jsstring) : option (Q * jsstring) :=
  match s with
  | c :: r =>
      if c =? 45 then
        match parse_unsigned r with
        | Some (q, rest) => Some (Qred (- q)%Q, rest)
        | None => None
        end
      else parse_unsigned s
  | [] => None
  end.

(** [s] without the prefix [lit], when it starts with it. *)
Fixpoint strip_prefix (lit s : jsstring) : option jsstring :=
  match lit, s with
  | [], _ => Some s
  | a :: lit', b :: s' => if a =? b then strip_prefix lit' s' else None
  | _ :: _, [] => None
  end.

Fixpoint parse_value (fuel : nat) (s : jsstring) : Parse Value :=
  match fuel with
  | O => OutOfFuel
  | S fuel' =>
      match s with
      | [] => SyntaxError
      | c :: r =>
          if c =? 123 then                       (* { *)
            match skip_ws r with
            | d :: r' =>
                if d =? 125 then Parsed (Obj []) r'
                else
                  match parse_members fuel' (skip_ws r) with
                  | Parsed ms rest => Parsed (Obj ms) rest
                  | SyntaxError => SyntaxError
                  | OutOfFuel => OutOfFuel
                  end
            | [] => SyntaxError
            end
          else if c =? 91 then                   (* [ *)
            match skip_ws r with
            | d :: r' =>
                if d =? 93 then Parsed (Arr []) r'
                else
                  match parse_elements fuel' (skip_ws r) with
                  | Parsed vs rest => Parsed (Arr vs) rest
                  | SyntaxError => SyntaxError
                  | OutOfFuel => OutOfFuel
                  end
            | [] => SyntaxError
            end
          else if c =? QUOTE then
            match parse_chars r with
            | Some (cs, rest) => Parsed (Str cs) rest
            | None => SyntaxError
            end
          else if c =? 116 then                  (* true *)
            match strip_prefix (js "true") s with
            | Some rest => Parsed (Bool true) rest
            | None => SyntaxError
            end
          else if c =? 102 then                  (* false *)
            match strip_prefix (js "false") s with
            | Some rest => Parsed (Bool false) rest
            | None => SyntaxError
            end
          else if c =? 110 then                  (* null *)
            match strip_prefix (js "null") s with
            | Some rest => Parsed Null rest
            | None => SyntaxError
            end
          else
            match parse_number s with
            | Some (q, rest) => Parsed (Num (binary64 q)) rest
            | None => SyntaxError
            end
      end
  end

(** [element (',' element)* ']'] *)
with parse_elements (fuel : nat) (s : jsstring) : Parse (list Value) :=
  match fuel with
  | O => OutOfFuel
  | S fuel' =>
      match parse_value fuel' (skip_ws s) with
      | Parsed v r =>
          match skip_ws r with
          | c :: r' =>
              if c =? 44 then
                match parse_elements fuel' r' with
                | Parsed vs rest => Parsed (v :: vs) rest
                | SyntaxError => SyntaxError
                | OutOfFuel => OutOfFuel
                end
              else if c =? 93 then Parsed [v] r'
              else SyntaxError
          | [] => SyntaxError
          end
      | SyntaxError => SyntaxError
      | OutOfFuel => OutOfFuel
      end
  end

(** [member (',' member)* '}'] *)
with parse_members (fuel : nat) (s : jsstring)
  : Parse (list (jsstring * Value)) :=
  match fuel with
  | O => OutOfFuel
  | S fuel' =>
      match skip_ws s with
      | q :: r0 =>
          if q =? QUOTE then
            match parse_chars r0 with
            | Some (key, r1) =>
                match skip_ws r1 with
                | colon :: r2 =>
                    if colon =? 58 then
                      match parse_value fuel' (skip_ws r2) with
                      | Parsed v r3 =>
                          match skip_ws r3 with
                          | c :: r4 =>
                              if c =? 44 then
                                match parse_members fuel' r4 with
                                | Parsed ms rest => Parsed ((key, v) :: ms) rest
                                | SyntaxError => SyntaxError
                                | OutOfFuel => OutOfFuel
                                end
                              else if c =? 125 then Parsed [(key, v)] r4
                              else SyntaxError
                          | [] => SyntaxError
                          end
                      | SyntaxError => SyntaxError
                      | OutOfFuel => OutOfFuel
                      end
                    else SyntaxError
                | [] => SyntaxError
                end
            | None => SyntaxError
            end
          else SyntaxError
      | [] => SyntaxError
      end
  end.

(** Enough fuel for a text: every two recursive calls consume a
    character (see [parse_fuel_enough]). *)
Definition fuel_for (text : jsstring) : nat := S (2 * length text).

(** [JSON.parse(text)]: the value, or [None] for the [SyntaxError]. *)
Definition parse (text : jsstring) : option Value :=
  match parse_value (fuel_for text) (skip_ws text) with
  | Parsed v rest =>
      match skip_ws rest with
      | [] => Some v
      | _ :: _ => None
      end
  | SyntaxError | OutOfFuel => None
  end.

End JSON.


(** ** The platform

Everything the service reads from outside the repository. *)

(** [process.env], destructured once when the modules are loaded. *)
Record Env := {
  GEMINI_WOLF_ENDPOINT : option string;
  GEMINI_WOLF_AUTH_TOKEN : option string;
  USE_WOLF_ENDPOINT : option string;
  GEMINI_ENDPOINT : option string;
  GEMINI_API_KEY : option string
}.

Record Platform := {
  env : Env;
  clock : nat -> Z;
    (* [clock n] is the value of the [n]-th reading of the clock *)
  toISOString : Z -> string;
    (* [new Date(t).toISOString()] *)
  pdf : list byte -> Exn + PdfData;
    (* [pdf(buffer)] of pdf-parse: rejection or data *)
  cvRejectsFirst : bool;
    (* when both extractions fail, whether the second rejects first *)
  axios_post : PostRequest -> Exn + PostResponse;
    (* [axios.post(url, request, {headers, timeout: 30000})] *)
  meanwhile : World -> World;
    (* what the other requests of the process do to the shared state
       while this one awaits the answer of [axios.post].  (The await on
       the two extractions comes before the request first reads the
       limiter or the clock: the world a request is run in stands for
       the shared state as the request finds it after that await.) *)
  syntaxErrorMessage : jsstring -> string;
    (* the message of the [SyntaxError] that [JSON.parse] raises *)
  nullPropertyMessage : string;
    (* the message of the [TypeError] of reading a property of [null] *)
  noPrimitiveMessage : string;
    (* the message of the [TypeError] of converting an object that has
       no callable [valueOf] or [toString] to a primitive *)
  coerce : JSON.Value -> string + JSON.Number
    (* [ToNumber] on strings and arrays: the number ([StringToNumber] of
       the string, or of the joined elements), or the message of the
       [TypeError] *)
}.

(** [a || b] where [a] is a string or [undefined]. *)
Definition or_string (a : option string) (b : string) : string :=
  match a with
  | Some s => if bool_decide (s = "") then b else s
  | None => b
  end.

(** [!a] where [a] is a string or [undefined]. *)
Definition missing (a : option string) : bool :=
  bool_decide (or_string a "" = "").

(** [USE_WOLF_ENDPOINT === 'true' || USE_WOLF_ENDPOINT === '1'] *)
Definition useWolf (e : Env) : bool :=
  bool_decide (USE_WOLF_ENDPOINT e = Some "true")
  || bool_decide (USE_WOLF_ENDPOINT e = Some "1").

(** Sequencing of computations that return a value or an error. *)
#[global] Instance sum_bind {E : Type} : MBind (sum E) :=
  fun A B f m =>
    match m with
    | inl e => inl e
    | inr a => f a
    end.

(** ** [src/services/aiService.ts] *)

Module AIService.
Import JSString JSON.

Record AnalysisResult := {
  overallMatch : Number;
  strengths : list Value;
  weaknesses : list Value;
  recommendations : list Value;
  keyAlignments : list Value;
  missingSkills : list Value;
  summary : Value
}.

Record t := {
  geminiEndpoint : string;
  authToken : string;
  apiKey : string;
  useWolfEndpoint : bool
}.

Definition wolfEndpoint : string := "https://intertest.woolf.engineering/invoke".

Definition constructor (e : Env) (token : option string) : t :=
  if useWolf e then
    {| authToken := or_string token (or_string (GEMINI_WOLF_AUTH_TOKEN e) "");
       geminiEndpoint := or_string (GEMINI_WOLF_ENDPOINT e) wolfEndpoint;
       apiKey := "";
       useWolfEndpoint := true |}
  else
    {| authToken := "";
       geminiEndpoint :=
         or_string (GEMINI_ENDPOINT e)
           "https://generativelanguage.googleapis.com/v1beta/models/gemini-2.0-flash:generateContent";
       apiKey := or_string (GEMINI_API_KEY e) "";
       useWolfEndpoint := false |}.

Definition buildAnalysisPrompt (cvText jobDescriptionText : jsstring) : jsstring :=
  js "
Analyze the following CV against the job description and provide a comprehensive evaluation.

JOB DESCRIPTION:
" ++ jobDescriptionText ++ js "

CANDIDATE CV:
" ++ cvText ++ js "

Please provide your analysis in the following JSON format (ensure valid JSON):

{
  " ++ quoted "overallMatch" ++ js ": <number between 0-100>,
  " ++ quoted "strengths" ++ js ": [<array of candidate's key strengths relevant to the role>],
  " ++ quoted "weaknesses" ++ js ": [<array of areas where candidate may be lacking>],
  " ++ quoted "recommendations" ++ js ": [<array of suggestions for improving the match>],
  " ++ quoted "keyAlignments" ++ js ": [<array of specific ways the candidate aligns with job requirements>],
  " ++ quoted "missingSkills" ++ js ": [<array of required skills the candidate appears to lack>],
  " ++ quoted "summary" ++ js ": " ++ quoted "<brief overall assessment paragraph>" ++ js "
}

Focus on:
- Technical skills alignment
- Experience relevance
- Cultural fit indicators
- Education/certification match
- Soft skills assessment
- Growth potential

Provide specific, actionable insights rather than generic statements.
".

(** [response.match(/\{[\s\S]*\}/)]: from the first opening brace to the
    last closing brace after it; no match when there is no opening brace
    or no closing brace after the first one. *)
Definition matchBraces (response : jsstring) : option jsstring :=
  match dropWhile (fun c => negb (c =? 123)%N) response with
  | [] => None
  | open :: after =>
      match dropWhile (fun c => negb (c =? 125)%N) (reverse after) with
      | [] => None
      | close :: before => Some (open :: reverse before ++ [close])
      end
  end.

(** [Math.min(100, x)] and [Math.max(0, x)] on a number. *)
Definition Math_min_100 (x : Number) : Number :=
  match x with
  | NaN => NaN
  | Infinite true => Infinite true
  | Infinite false => Finite 100
  | Finite q => Finite (if Qle_bool 100 q then 100%Q else q)
  end.

Definition Math_max_0 (x : Number) : Number :=
  match x with
  | NaN => NaN
  | Infinite true => Finite 0
  | Infinite false => Infinite false
  | Finite q => Finite (if Qle_bool q 0 then 0%Q else q)
  end.

Section WithPlatform.
Variable P : Platform.

(** [ToNumber], applied by [Math.min] to its arguments.  An object made
    by [JSON.parse] has [Object.prototype] as prototype and only data
    members: a member named [valueOf] is not callable and is skipped, the
    inherited [valueOf] returns the object itself, and then either a
    member named [toString] is not callable, which is a [TypeError], or
    the inherited [toString] gives ["[object Object]"], which is not a
    numeric string. *)
Definition ToNumber (v : Value) : string + Number :=
  match v with
  | Undefined => inr NaN
  | Null => inr (Finite 0)
  | Bool b => inr (Finite (if b then 1 else 0)%Q)
  | Num n => inr n
  | Obj props =>
      match lookup_member (js "toString") props with
      | Some _ => inl (noPrimitiveMessage P)
      | None => inr NaN
      end
  | Str _ | Arr _ => coerce P v
  end.

(** [parsed.key], or the message of the [TypeError]. *)
Definition property (parsed : Value) (key : string) : string + Value :=
  match get parsed key with
  | Some v => inr v
  | None => inl (nullPropertyMessage P)
  end.

(** The [try] block of [parseAIResponse]: the result, or the message of
    the error raised inside it. *)
Definition parseAIResponse_try (response : jsstring) : string + AnalysisResult :=
  (* Extract JSON from response (in case there's additional text) *)
  let jsonMatch := matchBraces response in
  let jsonString := default response jsonMatch in
  match JSON.parse jsonString with
  | None => inl (syntaxErrorMessage P jsonString)
  | Some parsed =>
      (* Validate required properties *)
      om ← property parsed "overallMatch";
      n ← ToNumber (or_else om (Num (Finite 0)));
      st ← property parsed "strengths";
      we ← property parsed "weaknesses";
      re ← property parsed "recommendations";
      ka ← property parsed "keyAlignments";
      ms ← property parsed "missingSkills";
      su ← property parsed "summary";
      inr {| overallMatch := Math_max_0 (Math_min_100 n);
             strengths := array_or_empty st;
             weaknesses := array_or_empty we;
             recommendations := array_or_empty re;
             keyAlignments := array_or_empty ka;
             missingSkills := array_or_empty ms;
             summary := or_else su (Str (js "Analysis completed")) |}
  end.

(** Every value thrown inside the [try] block is an [Error], so the
    alternative ['Invalid JSON'] of the handler is never taken. *)
Definition parseAIResponse (response : jsstring) : Exn + AnalysisResult :=
  match parseAIResponse_try response with
  | inr result => inr result
  | inl message => inl (PlainError ("Failed to parse AI response: " +:+ message))
  end.

Definition lift {A} (r : Exn + A) : M A :=
  match r with
  | inr a => ret a
  | inl e => throw e
  end.

(** The request of [analyzeCandidate]: URL and headers by endpoint. *)
Definition request_of (svc : t) (prompt : jsstring) : PostRequest :=
  if useWolfEndpoint svc then
    (* Wolf endpoint configuration *)
    {| post_url := geminiEndpoint svc;
       post_authorization := Some ("Bearer " +:+ authToken svc);
       post_prompt := prompt |}
  else
    (* Google Gemini endpoint configuration *)
    {| post_url := geminiEndpoint svc +:+ "?key=" +:+ apiKey svc;
       post_authorization := None;
       post_prompt := prompt |}.

Definition analyzeCandidate (svc : t) (cvText jobDescriptionText : jsstring)
  : M AnalysisResult :=
  (* Check rate limits *)
  rateLimitCheck <- RateLimiter.canMakeRequest (clock P) RateLimiter.default_identifier ;;
  if negb (RateLimiter.allowed rateLimitCheck) then
    throw (PlainError (default "" (RateLimiter.error rateLimitCheck)))
  else
    let prompt := buildAnalysisPrompt cvText jobDescriptionText in
    try_catch
      (let request := request_of svc prompt in
       log_call (CallPost request) ;;;
       suspend (meanwhile P) ;;;
       response <- lift (axios_post P request) ;;
       match response with
       | Some (c :: aiResponse) => lift (parseAIResponse (c :: aiResponse))
       | Some [] | None => throw (PlainError "Invalid response from AI service")
       end)
      (fun error =>
         match error with
         | AxiosError status dataMessage message =>
             if bool_decide (status = Some 429) then
               throw (PlainError "Rate limit exceeded on AI service")
             else
               throw (PlainError ("AI service error: "
                                  +:+ or_string dataMessage message))
         | _ => throw error
         end).

Definition getRemainingRequests : M RateLimiter.Remaining :=
  RateLimiter.getRemainingRequests (clock P) RateLimiter.default_identifier.

End WithPlatform.
End AIService.


(** ** [src/routers/analysisRouter.ts] *)

Module Router.
Import JSString.

Record Config := {
  useWolf_ : bool;
  token : option string
}.

Record Metadata := {
  jobDescriptionPages : Z;
  cvPages : Z;
  analysisTimestamp : string;
  remainingRequests : RateLimiter.Remaining;
  endpointUsed : string
}.

(** [{ ...analysis, metadata }] *)
Record Response := {
  analysis : AIService.AnalysisResult;
  metadata : Metadata
}.

(** Helper function to validate AI service configuration *)
Definition validateAIConfiguration (e : Env) : Exn + Config :=
  if useWolf e then
    if missing (GEMINI_WOLF_AUTH_TOKEN e) then
      inl (TRPCError INTERNAL_SERVER_ERROR "Wolf endpoint auth token not configured")
    else inr {| useWolf_ := true; token := GEMINI_WOLF_AUTH_TOKEN e |}
  else
    if missing (GEMINI_API_KEY e) then
      inl (TRPCError INTERNAL_SERVER_ERROR "Google Gemini API key not configured")
    else inr {| useWolf_ := false; token := None |}.

Section WithPlatform.
Variable P : Platform.

(** [await Promise.all([extractText(a), extractText(b)])]: both calls are
    started, in this order, before either is awaited; the first rejection
    to arrive is the one thrown. *)
Definition extractBoth (a b : list byte)
  : M (PDFService.ProcessedPDFContent * PDFService.ProcessedPDFContent) :=
  fun w =>
    let '(ra, w1) := PDFService.extractText (pdf P) a w in
    let '(rb, w2) := PDFService.extractText (pdf P) b w1 in
    match ra, rb with
    | Returned ca, Returned cb => (Returned (ca, cb), w2)
    | Thrown e, Returned _ => (Thrown e, w2)
    | Returned _, Thrown e => (Thrown e, w2)
    | Thrown ea, Thrown eb => (Thrown (if cvRejectsFirst P then eb else ea), w2)
    end.

(** [new Date().toISOString()] *)
Definition now_iso : M string :=
  t <- RateLimiter.Date_now (clock P) ;;
  ret (toISOString P t).

(** The body of the [try] block of [analyzeCandidateMatch]. *)
Definition analyze_try (jobDescription cv : list byte) : M Response :=
  (* Validate PDF files *)
  let jobDescValidation := PDFService.validatePDF jobDescription in
  if negb (PDFService.isValid jobDescValidation) then
    throw (TRPCError BAD_REQUEST
             ("Job description PDF error: "
              +:+ default "undefined" (PDFService.error jobDescValidation)))
  else
  let cvValidation := PDFService.validatePDF cv in
  if negb (PDFService.isValid cvValidation) then
    throw (TRPCError BAD_REQUEST
             ("CV PDF error: "
              +:+ default "undefined" (PDFService.error cvValidation)))
  else
  (* Extract text from PDFs *)
  contents <- extractBoth jobDescription cv ;;
  let '(jobDescContent, cvContent) := contents in
  (* Clean and validate extracted text *)
  let jobDescText := PDFService.cleanText (PDFService.text jobDescContent) in
  let cvText := PDFService.cleanText (PDFService.text cvContent) in
  if bool_decide (trim jobDescText = []) then
    throw (TRPCError BAD_REQUEST "Job description PDF contains no readable text")
  else
  if bool_decide (trim cvText = []) then
    throw (TRPCError BAD_REQUEST "CV PDF contains no readable text")
  else
  (* Validate AI service configuration *)
  config <- AIService.lift (validateAIConfiguration (env P)) ;;
  (* Create AI service instance *)
  let aiService := AIService.constructor (env P) (token config) in
  analysis <- AIService.analyzeCandidate P aiService cvText jobDescText ;;
  timestamp <- now_iso ;;
  remaining <- AIService.getRemainingRequests P ;;
  ret {| analysis := analysis;
         metadata :=
           {| jobDescriptionPages := PDFService.pageCount jobDescContent;
              cvPages := PDFService.pageCount cvContent;
              analysisTimestamp := timestamp;
              remainingRequests := remaining;
              endpointUsed := if useWolf_ config then "Wolf" else "Google Gemini" |} |}.

(** The mutation [analyzeCandidateMatch]: a [TRPCError] passes through,
    any other thrown value becomes an INTERNAL_SERVER_ERROR. *)
Definition analyzeCandidateMatch (jobDescription cv : list byte) : M Response :=
  try_catch (analyze_try jobDescription cv)
    (fun error =>
       match error with
       | TRPCError _ _ => throw error
       | _ => throw (TRPCError INTERNAL_SERVER_ERROR
                       (message_or "Analysis failed" error))
       end).

End WithPlatform.
End Router.


(** ** Start of the process

Loading [server.ts] loads the router, the services and the rate limiter:
the environment is read, the singleton [rateLimiter] is created with no
window, the routes are registered and the server listens.  No statement
of this initialisation looks at the credentials, and the constructor of
[AIService], which runs for every request, replaces a missing credential
by the empty string. *)
Definition startup (e : Env) : Exn + World :=
  inr {| windows := ∅; ticks := 0; calls := [] |}.

(** ** Vocabulary of the statements *)

(** The credential that the selected endpoint needs is absent or empty. *)
Definition credentialMissing (e : Env) : bool :=
  if useWolf e then missing (GEMINI_WOLF_AUTH_TOKEN e)
  else missing (GEMINI_API_KEY e).

(** The world after the two extractions were started. *)
Definition extracted (w : World) (a b : list byte) : World :=
  {| windows := windows w;
     ticks := ticks w;
     calls := (calls w ++ [CallPdf a]) ++ [CallPdf b] |}.

(** The timestamps recorded for an identifier; none when it is unknown. *)
Definition window_of (w : World) (identifier : string) : list Z :=
  requests (default {| requests := [] |} (windows w !! identifier)).

(** The timestamps of [l] that are less than [windowMs] old at [now]. *)
Definition within (now windowMs : Z) (l : list Z) : list Z :=
  filter (fun timestamp => now - timestamp < windowMs) l.

(** The world after a check: the window of [identifier] replaced and
    [reads] more readings of the clock taken. *)
Definition recorded (w : World) (identifier : string) (rs : list Z) (reads : nat)
  : World :=
  {| windows := <[identifier := {| requests := rs |}]> (windows w);
     ticks := (ticks w + reads)%nat;
     calls := calls w |}.

(** The same state observed when [k] readings of the clock have been taken. *)
Definition at_tick (k : nat) (w : World) : World :=
  {| windows := windows w; ticks := k; calls := calls w |}.

Definition allowedResult : RateLimiter.CheckResult :=
  {| RateLimiter.allowed := true; RateLimiter.error := None |}.

Definition minuteRejection : RateLimiter.CheckResult :=
  {| RateLimiter.allowed := false;
     RateLimiter.error := Some "Rate limit exceeded: 20 requests per minute" |}.

Definition hourRejection : RateLimiter.CheckResult :=
  {| RateLimiter.allowed := false;
     RateLimiter.error := Some "Rate limit exceeded: 300 requests per hour" |}.

(** All the readings of the clock numbered from [k0] up to [k1]
    (excluded) lie less than a minute apart. *)
Definition within_one_minute (clock : nat -> Z) (k0 k1 : nat) : Prop :=
  forall i j : nat, (k0 <= i < k1)%nat -> (k0 <= j < k1)%nat ->
    clock j - clock i < 60000.

(** Timestamps that are readings of the clock numbered from [k0] up to
    [k1] (excluded). *)
Definition read_between (clock : nat -> Z) (k0 k1 : nat) (l : list Z) : Prop :=
  forall ts, ts ∈ l -> exists i : nat, (k0 <= i < k1)%nat /\ ts = clock i.

(** A text in which white space occurs only as single spaces between
    other characters; [afterSpace] tells that the text follows a space. *)
Fixpoint singleSpaced (afterSpace : bool) (s : jsstring) : Prop :=
  match s with
  | [] => True
  | c :: r =>
      if JSString.isWhiteSpace c then
        c = JSString.SPACE /\ afterSpace = false /\ singleSpaced true r
      else singleSpaced false r
  end.

(** The text does not begin with white space. *)
Definition startsClean (s : jsstring) : Prop :=
  match s with
  | [] => True
  | c :: _ => JSString.isWhiteSpace c = false
  end.

(** A parse that did not run out of fuel and, when it succeeded,
    consumed at least one character of [s]. *)
Definition fits {A} (r : JSON.Parse A) (s : jsstring) : Prop :=
  match r with
  | JSON.Parsed _ rest => (length rest < length s)%nat
  | JSON.SyntaxError => True
  | JSON.OutOfFuel => False
  end.

(** The result in which every field has its default. *)
Definition defaultResult : AIService.AnalysisResult :=
  {| AIService.overallMatch := JSON.Finite 0;
     AIService.strengths := [];
     AIService.weaknesses := [];
     AIService.recommendations := [];
     AIService.keyAlignments := [];
     AIService.missingSkills := [];
     AIService.summary := JSON.Str (js "Analysis completed") |}.

(** The text that [parseAIResponse] hands to [JSON.parse]. *)
Definition jsonString (response : jsstring) : jsstring :=
  default response (AIService.matchBraces response).

(** The member [key] of an object, [undefined] when there is none. *)
Definition field (props : list (jsstring * JSON.Value)) (key : string)
  : JSON.Value :=
  default JSON.Undefined (JSON.lookup_member (js key) props).

(** The minute count that a returned response reports. *)
Definition reportedMinute (o : Outcome Router.Response) : option Z :=
  match o with
  | Returned response =>
      Some (RateLimiter.minute
              (Router.remainingRequests (Router.metadata response)))
  | Thrown _ => None
  end.

(** ** Sample inputs *)

(** A clock that advances by one millisecond at every reading. *)
Definition sampleClock (n : nat) : Z := 1700000000000 + Z.of_nat n.

Definition emptyWorld : World :=
  {| windows := ∅; ticks := 0; calls := [] |}.

(** A world in which the minute quota of ["x"] is used up. *)
Definition fullWorld : World :=
  {| windows := {[ "x" := {| requests := replicate 20 1700000000000 |} ]};
     ticks := 0;
     calls := [] |}.

(** The bytes of [%PDF-1.4] and a line feed. *)
Definition samplePdf : list byte :=
  [x25; x50; x44; x46; x2d; x31; x2e; x34; x0a].

(** The bytes of [%PDF-] alone. *)
Definition shortPdf : list byte := [x25; x50; x44; x46; x2d].

(** The bytes of [fake pdf]. *)
Definition fakePdf : list byte :=
  [x66; x61; x6b; x65; x20; x70; x64; x66].

(** The reply [Here you go: {"overallMatch": 150, "strengths": "not-a-list"}] *)
Definition outOfRangeReply : jsstring :=
  js "Here you go: {" ++ JSString.quoted "overallMatch" ++ js ": 150, "
  ++ JSString.quoted "strengths" ++ js ": " ++ JSString.quoted "not-a-list"
  ++ js "}".

(** The reply [{"overallMatch": {}}] *)
Definition objectMatchReply : jsstring :=
  js "{" ++ JSString.quoted "overallMatch" ++ js ": {}}".

(** The reply [{"overallMatch": true}] *)
Definition booleanMatchReply : jsstring :=
  js "{" ++ JSString.quoted "overallMatch" ++ js ": true}".

(** A reply of the model with commentary around the object:
    [Sure: {"overallMatch": 85, "strengths": ["TypeScript"]} Done.] *)
Definition sampleReply : jsstring :=
  js "Sure: {" ++ JSString.quoted "overallMatch" ++ js ": 85, "
  ++ JSString.quoted "strengths" ++ js ": [" ++ JSString.quoted "TypeScript"
  ++ js "]} Done.".

(** A platform with the API key of the Google endpoint configured, whose
    parser finds two words on as many pages as the buffer has bytes. *)
Definition samplePlatform : Platform :=
  {| env := {| GEMINI_WOLF_ENDPOINT := None;
               GEMINI_WOLF_AUTH_TOKEN := None;
               USE_WOLF_ENDPOINT := None;
               GEMINI_ENDPOINT := None;
               GEMINI_API_KEY := Some "key" |};
     clock := sampleClock;
     toISOString := fun t => pretty t;
     pdf := fun buffer =>
              inr {| data_text := js "hello  world";
                     data_numpages := Z.of_nat (length buffer) |};
     cvRejectsFirst := false;
     axios_post := fun _ => inr (Some sampleReply);
     meanwhile := fun w => w;
     syntaxErrorMessage := fun _ => "Unexpected token";
     nullPropertyMessage := "Cannot read properties of null";
     noPrimitiveMessage := "Cannot convert object to primitive value";
     coerce := fun _ => inr JSON.NaN |}.

(** A world with one request recorded at instant 1000, and a platform
    whose clock starts just under a minute later and advances by five
    milliseconds at every reading. *)
Definition slidingWorld : World :=
  {| windows := {[ "default" := {| requests := [1000] |} ]};
     ticks := 0;
     calls := [] |}.

Definition slowPlatform : Platform :=
  {| env := env samplePlatform;
     clock := fun n => 60980 + 5 * Z.of_nat n;
     toISOString := toISOString samplePlatform;
     pdf := pdf samplePlatform;
     cvRejectsFirst := cvRejectsFirst samplePlatform;
     axios_post := axios_post samplePlatform;
     meanwhile := meanwhile samplePlatform;
     syntaxErrorMessage := syntaxErrorMessage samplePlatform;
     nullPropertyMessage := nullPropertyMessage samplePlatform;
     noPrimitiveMessage := noPrimitiveMessage samplePlatform;
     coerce := coerce samplePlatform |}.

(** The same platform without any credential. *)
Definition unconfiguredPlatform : Platform :=
  {| env := {| GEMINI_WOLF_ENDPOINT := None;
               GEMINI_WOLF_AUTH_TOKEN := None;
               USE_WOLF_ENDPOINT := None;
               GEMINI_ENDPOINT := None;
               GEMINI_API_KEY := None |};
     clock := clock samplePlatform;
     toISOString := toISOString samplePlatform;
     pdf := pdf samplePlatform;
     cvRejectsFirst := cvRejectsFirst samplePlatform;
     axios_post := axios_post samplePlatform;
     meanwhile := meanwhile samplePlatform;
     syntaxErrorMessage := syntaxErrorMessage samplePlatform;
     nullPropertyMessage := nullPropertyMessage samplePlatform;
     noPrimitiveMessage := noPrimitiveMessage samplePlatform;
     coerce := coerce samplePlatform |}.

(** Eleven MiB that start with [%PDF]. *)
Definition oversizedPdf : list byte :=
  x25 :: x50 :: x44 :: x46 :: replicate (Z.to_nat 11534332) x00.

(** ** The other procedures of [src/routers/analysisRouter.ts] and the
    route of [src/server.ts] *)

Module Procedures.

(** [getCurrentConfig] of [AIService]. *)
Record CurrentConfig := {
  cc_useWolfEndpoint : bool;
  cc_endpoint : string
}.

Definition getCurrentConfig (svc : AIService.t) : CurrentConfig :=
  {| cc_useWolfEndpoint := AIService.useWolfEndpoint svc;
     cc_endpoint := AIService.geminiEndpoint svc |}.

Record HealthConfiguration := {
  hc_useWolfEndpoint : bool;
  hc_endpoint : string;
  hc_authConfigured : bool;
  hc_configError : option string
}.

(** What [healthCheck] answers: the report of its [try] block, or the
    answer of its handler. *)
Inductive Health :=
| HealthReport (status : string) (timestamp : string)
    (configuration : HealthConfiguration)
    (remainingRequests : RateLimiter.Remaining)
    (aiServiceConfig : option CurrentConfig)
| HealthError (timestamp : string) (error : string).

Record Configuration := {
  gc_useWolfEndpoint : bool;
  gc_wolfEndpoint : string;
  gc_geminiEndpoint : string;
  gc_wolfAuthConfigured : bool;
  gc_geminiApiKeyConfigured : bool;
  gc_currentEndpoint : string
}.

(** [configError || undefined] *)
Definition nonempty (s : string) : option string :=
  if bool_decide (s = "") then None else Some s.

Section WithPlatform.
Variable P : Platform.

Definition healthCheck : M Health :=
  try_catch
    (let useWolfEndpoint := useWolf (env P) in
     (* Validate configuration without throwing *)
     let configValid :=
       if useWolfEndpoint then negb (missing (GEMINI_WOLF_AUTH_TOKEN (env P)))
       else negb (missing (GEMINI_API_KEY (env P))) in
     let configError :=
       if useWolfEndpoint
       then (if configValid then "" else "Wolf auth token missing")
       else (if configValid then "" else "Gemini API key missing") in
     state <-
       (if configValid then
          let aiService :=
            AIService.constructor (env P)
              (if useWolfEndpoint then GEMINI_WOLF_AUTH_TOKEN (env P) else None) in
          remaining <- AIService.getRemainingRequests P ;;
          ret (Some aiService, remaining)
        else
          ret (None, {| RateLimiter.minute := 0; RateLimiter.hour := 0 |})) ;;
     let '(aiService, remainingRequests) := state in
     timestamp <- Router.now_iso P ;;
     ret (HealthReport
            (if configValid then "healthy" else "configuration_error")
            timestamp
            {| hc_useWolfEndpoint := useWolfEndpoint;
               hc_endpoint :=
                 if useWolfEndpoint
                 then or_string (GEMINI_WOLF_ENDPOINT (env P))
                        "https://intertest.woolf.engineering/invoke"
                 else or_string (GEMINI_ENDPOINT (env P)) "Google Gemini API";
               hc_authConfigured := configValid;
               hc_configError := nonempty configError |}
            remainingRequests
            (getCurrentConfig <$> aiService)))
    (fun error =>
       timestamp <- Router.now_iso P ;;
       ret (HealthError timestamp (message_or "Health check failed" error))).

End WithPlatform.

Definition getConfiguration (e : Env) : Configuration :=
  let useWolfEndpoint := useWolf e in
  {| gc_useWolfEndpoint := useWolfEndpoint;
     gc_wolfEndpoint :=
       or_string (GEMINI_WOLF_ENDPOINT e)
         "https://intertest.woolf.engineering/invoke";
     gc_geminiEndpoint :=
       or_string (GEMINI_ENDPOINT e)
         "https://generativelanguage.googleapis.com/v1beta/models/gemini-2.0-flash:generateContent";
     gc_wolfAuthConfigured := negb (missing (GEMINI_WOLF_AUTH_TOKEN e));
     gc_geminiApiKeyConfigured := negb (missing (GEMINI_API_KEY e));
     gc_currentEndpoint := if useWolfEndpoint then "Wolf" else "Google Gemini" |}.

End Procedures.

Module Server.

Record UploadedFile := {
  buffer : list byte;
  originalname : string;
  mimetype : string
}.

(** [req.files] after the upload middleware: the files of each field, an
    absent field being an empty list. *)
Record Files := {
  jobDescription : list UploadedFile;
  cv : list UploadedFile
}.

Inductive Body :=
| ErrorBody (error : string)
| ResultBody (result : Router.Response).

(** [res.status(s).json(b)]; [res.json(b)] has status 200. *)
Record HttpResponse := {
  status : Z;
  body : Body
}.

(** [error instanceof Error && 'code' in error
       ? (error.code === 'BAD_REQUEST' ? 400 : 500) : 500] *)
Definition statusCode (error : Exn) : Z :=
  match error with
  | TRPCError BAD_REQUEST _ => 400
  | _ => 500
  end.

Section WithPlatform.
Variable P : Platform.
(** The message of the [TypeError] of reading a property of [undefined]. *)
Variable undefinedPropertyMessage : string.

(** The handler of [POST /api/analyze], after the upload middleware;
    [files] is [None] when the middleware left [req.files] undefined (a
    request that is not multipart). *)
Definition apiAnalyze (files : option Files) : M HttpResponse :=
  try_catch
    (match files with
     | None => throw (PlainError undefinedPropertyMessage)
     | Some fs =>
         match jobDescription fs, cv fs with
         | jobDescFile :: _, cvFile :: _ =>
             (* Create tRPC context and call the procedure *)
             result <- Router.analyzeCandidateMatch P
                         (buffer jobDescFile) (buffer cvFile) ;;
             ret {| status := 200; body := ResultBody result |}
         | _, _ =>
             ret {| status := 400;
                    body := ErrorBody
                      "Both jobDescription and cv PDF files are required" |}
         end
     end)
    (fun error =>
       ret {| status := statusCode error;
              body := ErrorBody (message_or "Analysis failed" error) |}).

End WithPlatform.
End Server.

(** ** Further vocabulary *)

(** The world with one more external call started. *)
Definition with_call (w : World) (c : Call) : World :=
  {| windows := windows w; ticks := ticks w; calls := calls w ++ [c] |}.

(** No gateway call has been started. *)
Definition noPost (cs : list Call) : Prop :=
  forall request : PostRequest, CallPost request ∉ cs.

(** The characters of a text that are not white space, in order. *)
Definition inkOf (s : jsstring) : jsstring :=
  filter (fun c => JSString.isWhiteSpace c = false) s.

(** A platform whose clock shows the same instant at every reading. *)
Definition frozenClock (t : Z) (n : nat) : Z := t.

(** A platform like [samplePlatform] whose gateway answers 429. *)
Definition throttledPlatform : Platform :=
  {| env := env samplePlatform;
     clock := clock samplePlatform;
     toISOString := toISOString samplePlatform;
     pdf := pdf samplePlatform;
     cvRejectsFirst := cvRejectsFirst samplePlatform;
     axios_post := fun _ =>
       inl (AxiosError (Some 429) None "Request failed with status code 429");
     meanwhile := meanwhile samplePlatform;
     syntaxErrorMessage := syntaxErrorMessage samplePlatform;
     nullPropertyMessage := nullPropertyMessage samplePlatform;
     noPrimitiveMessage := noPrimitiveMessage samplePlatform;
     coerce := coerce samplePlatform |}.

(** A platform like [samplePlatform] whose parser rejects every buffer. *)
Definition unreadablePlatform : Platform :=
  {| env := env samplePlatform;
     clock := clock samplePlatform;
     toISOString := toISOString samplePlatform;
     pdf := fun _ => inl (PlainError "Invalid PDF structure");
     cvRejectsFirst := cvRejectsFirst samplePlatform;
     axios_post := axios_post samplePlatform;
     meanwhile := meanwhile samplePlatform;
     syntaxErrorMessage := syntaxErrorMessage samplePlatform;
     nullPropertyMessage := nullPropertyMessage samplePlatform;
     noPrimitiveMessage := noPrimitiveMessage samplePlatform;
     coerce := coerce samplePlatform |}.

(** A platform like [samplePlatform] whose parser finds only blanks. *)
Definition blankPlatform : Platform :=
  {| env := env samplePlatform;
     clock := clock samplePlatform;
     toISOString := toISOString samplePlatform;
     pdf := fun buffer =>
              inr {| data_text := [32; 10; 9; 13; 160]%N; data_numpages := 1 |};
     cvRejectsFirst := cvRejectsFirst samplePlatform;
     axios_post := axios_post samplePlatform;
     meanwhile := meanwhile samplePlatform;
     syntaxErrorMessage := syntaxErrorMessage samplePlatform;
     nullPropertyMessage := nullPropertyMessage samplePlatform;
     noPrimitiveMessage := noPrimitiveMessage samplePlatform;
     coerce := coerce samplePlatform |}.

(** The world in which the minute quota of the default identifier is
    used up. *)
Definition busyWorld : World :=
  {| windows := {[ "default" := {| requests := replicate 20 1700000000000 |} ]};
     ticks := 0;
     calls := [] |}.

(** Ten MiB exactly that start with [%PDF]. *)
Definition largestPdf : list byte :=
  x25 :: x50 :: x44 :: x46 :: replicate (Z.to_nat 10485756) x00.

(** Run [f] on every element of [l], in order. *)
Fixpoint forEach {A B} (f : A -> M B) (l : list A) : M (list B) :=
  match l with
  | [] => ret []
  | x :: r => b <- f x ;; bs <- forEach f r ;; ret (b :: bs)
  end.

(** No identifier has more than 300 timestamps recorded. *)
Definition bounded (w : World) : Prop :=
  forall identifier : string, (length (window_of w identifier) <= 300)%nat.

(** Both documents pass validation and extraction and have readable
    text. *)
Definition documentsReadable
  (P : Platform) (jd cv : list byte) (djd dcv : PdfData) : Prop :=
  PDFService.isValid (PDFService.validatePDF jd) = true
  /\ PDFService.isValid (PDFService.validatePDF cv) = true
  /\ pdf P jd = inr djd /\ pdf P cv = inr dcv
  /\ JSString.trim (PDFService.cleanText (data_text djd)) ≠ []
  /\ JSString.trim (PDFService.cleanText (data_text dcv)) ≠ [].

(** The window of the default identifier after the pruning of a check
    made in [w]. *)
Definition prunedWindow (clock : nat -> Z) (w : World) : list Z :=
  within (clock (S (ticks w))) 3600000
    (window_of w RateLimiter.default_identifier).

(** A check for the default identifier made in [w] is admitted. *)
Definition admits (clock : nat -> Z) (w : World) : Prop :=
  Z.of_nat (length (within (clock (S (S (ticks w)))) 60000 (prunedWindow clock w)))
  < 20
  /\ Z.of_nat (length (prunedWindow clock w)) < 300.

(** The request that an analysis of the two texts sends. *)
Definition requestFor (P : Platform) (cfg : Router.Config) (djd dcv : PdfData)
  : PostRequest :=
  AIService.request_of (AIService.constructor (env P) (Router.token cfg))
    (AIService.buildAnalysisPrompt
       (PDFService.cleanText (data_text dcv))
       (PDFService.cleanText (data_text djd))).

(** The world in which an admitted analysis is suspended for the answer
    of the gateway: its instant is recorded after the pruning, three
    readings of the clock are taken and its gateway call is started. *)
Definition suspended (P : Platform) (w : World) (request : PostRequest)
  : World :=
  {| windows :=
       <[RateLimiter.default_identifier :=
           {| requests := prunedWindow (clock P) w ++ [clock P (ticks w)] |}]>
         (windows w);
     ticks := ticks w + 3;
     calls := calls w ++ [CallPost request] |}.

(** A world with one request recorded ten milliseconds before the first
    reading of [sampleClock]. *)
Definition recentWorld : World :=
  {| windows := {[ "default" := {| requests := [1699999999990] |} ]};
     ticks := 0;
     calls := [] |}.

(** A platform like [samplePlatform] on which another request is checked
    by the limiter while the first one awaits the gateway. *)
Definition crowdedPlatform : Platform :=
  {| env := env samplePlatform;
     clock := clock samplePlatform;
     toISOString := toISOString samplePlatform;
     pdf := pdf samplePlatform;
     cvRejectsFirst := cvRejectsFirst samplePlatform;
     axios_post := axios_post samplePlatform;
     meanwhile := fun w =>
       snd (RateLimiter.canMakeRequest sampleClock
              RateLimiter.default_identifier w);
     syntaxErrorMessage := syntaxErrorMessage samplePlatform;
     nullPropertyMessage := nullPropertyMessage samplePlatform;
     noPrimitiveMessage := noPrimitiveMessage samplePlatform;
     coerce := coerce samplePlatform |}.

(* ===================================================================== *)
(** * Part II.  The properties                                            *)
(* ===================================================================== *)

(** ** Lists and filters *)

Section Filters.
Context {A : Type} (P Q : A -> Prop) `{!forall x, Decision (P x)} `{!forall x, Decision (Q x)}.

Lemma filter_keeps_all (l : list A) :
  (forall x, x ∈ l -> P x) -> filter P l = l.
Proof.
  induction l as [|x l IH]; intros Hall; [done|].
  rewrite filter_cons_True by (apply Hall; left).
  f_equal. apply IH. intros y Hy. apply Hall. by right.
Qed.

Lemma filter_agree (l : list A) :
  (forall x, x ∈ l -> P x <-> Q x) -> filter P l = filter Q l.
Proof.
  induction l as [|x l IH]; intros Hall; [done|].
  assert (Hl : filter P l = filter Q l).
  { apply IH. intros y Hy. apply Hall. by right. }
  destruct (decide (P x)) as [HP|HP].
  - rewrite filter_cons_True by done.
    rewrite (filter_cons_True Q) by (apply Hall; [left|done]).
    by rewrite Hl.
  - rewrite filter_cons_False by done.
    rewrite (filter_cons_False Q); [done|].
    intros HQ. apply HP, Hall; [left|done].
Qed.

Lemma filter_length_mono (l : list A) :
  (forall x, x ∈ l -> P x -> Q x) ->
  (length (filter P l) <= length (filter Q l))%nat.
Proof.
  induction l as [|x l IH]; intros Hall; [done|].
  assert (Hl : (length (filter P l) <= length (filter Q l))%nat).
  { apply IH. intros y Hy. apply Hall. by right. }
  destruct (decide (P x)) as [HP|HP].
  - rewrite filter_cons_True by done.
    rewrite (filter_cons_True Q) by (apply Hall; [left|done]).
    simpl. lia.
  - rewrite filter_cons_False by done.
    destruct (decide (Q x)).
    + rewrite (filter_cons_True Q) by done. simpl. lia.
    + by rewrite (filter_cons_False Q).
Qed.

End Filters.

(** ** The rate limiter *)

Section RateLimiterFacts.
Variable clock : nat -> Z.

Lemma minute_message :
  "Rate limit exceeded: " +:+ pretty RateLimiter.minuteLimit
    +:+ " requests per minute"
  = "Rate limit exceeded: 20 requests per minute".
Proof. reflexivity. Qed.

Lemma hour_message :
  "Rate limit exceeded: " +:+ pretty RateLimiter.hourLimit
    +:+ " requests per hour"
  = "Rate limit exceeded: 300 requests per hour".
Proof. reflexivity. Qed.

(** One check, as a function of the three readings of the clock it takes. *)
Lemma canMakeRequest_unfold (identifier : string) (w : World) :
  let now := clock (ticks w) in
  let pruned := within (clock (S (ticks w))) 3600000 (window_of w identifier) in
  let minuteCount :=
    length (within (clock (S (S (ticks w)))) 60000 pruned) in
  RateLimiter.canMakeRequest clock identifier w =
    if bool_decide (20 <= Z.of_nat minuteCount) then
      (Returned minuteRejection, recorded w identifier pruned 3)
    else if bool_decide (300 <= Z.of_nat (length pruned)) then
      (Returned hourRejection, recorded w identifier pruned 3)
    else
      (Returned allowedResult, recorded w identifier (pruned ++ [now]) 3).
Proof.
  intros now pruned minuteCount. subst now pruned minuteCount.
  unfold RateLimiter.canMakeRequest.
  rewrite minute_message, hour_message.
  unfold bind, RateLimiter.cleanOldRequests, bind, RateLimiter.Date_now,
    get_windows, set_window, ret, recorded, window_of, within,
    RateLimiter.minuteWindow, RateLimiter.hourWindow,
    RateLimiter.minuteLimit, RateLimiter.hourLimit.
  change (60 * 60 * 1000) with 3600000. change (60 * 1000) with 60000.
  replace (ticks w + 3)%nat with (S (S (S (ticks w)))) by lia.
  destruct (windows w !! identifier) as [win|] eqn:Hlook;
    repeat (progress (simpl; rewrite ?Hlook, ?lookup_insert_eq));
    repeat case_bool_decide; simpl; rewrite ?insert_insert_eq;
    first [reflexivity | contradiction].
Qed.

Lemma getRemainingRequests_unfold (identifier : string) (w : World) :
  RateLimiter.getRemainingRequests clock identifier w =
    match windows w !! identifier with
    | None =>
        (Returned {| RateLimiter.minute := 20; RateLimiter.hour := 300 |}, w)
    | Some win =>
        (Returned
           {| RateLimiter.minute :=
                Z.max 0 (20 - Z.of_nat (length
                  (within (clock (S (ticks w))) 60000 (requests win))));
              RateLimiter.hour :=
                Z.max 0 (300 - Z.of_nat (length
                  (within (clock (S (S (ticks w)))) 3600000 (requests win)))) |},
         at_tick (ticks w + 3) w)
    end.
Proof.
  unfold RateLimiter.getRemainingRequests, bind, get_windows. simpl.
  destruct (windows w !! identifier) as [win|]; [|reflexivity].
  unfold bind, RateLimiter.cleanOldRequests, bind, RateLimiter.Date_now, ret,
    at_tick. simpl.
  replace (ticks w + 3)%nat with (S (S (S (ticks w)))) by lia.
  reflexivity.
Qed.

Lemma window_of_recorded (w : World) (identifier : string) (rs : list Z) (n : nat) :
  window_of (recorded w identifier rs n) identifier = rs.
Proof. unfold window_of, recorded. simpl. by rewrite lookup_insert_eq. Qed.

Lemma window_of_recorded_ne (w : World) (i j : string) (rs : list Z) (n : nat) :
  i ≠ j -> window_of (recorded w i rs n) j = window_of w j.
Proof.
  intros Hne. unfold window_of, recorded. simpl.
  by rewrite lookup_insert_ne.
Qed.

(** A check whose window and readings all lie within one minute: only
    the number of recorded requests matters. *)
Lemma canMakeRequest_within_minute (k0 k1 : nat) (identifier : string) (w : World) :
  within_one_minute clock k0 k1 ->
  (k0 <= ticks w)%nat -> (ticks w + 3 <= k1)%nat ->
  read_between clock k0 k1 (window_of w identifier) ->
  RateLimiter.canMakeRequest clock identifier w =
    if bool_decide (20 <= Z.of_nat (length (window_of w identifier))) then
      (Returned minuteRejection, recorded w identifier (window_of w identifier) 3)
    else
      (Returned allowedResult,
       recorded w identifier (window_of w identifier ++ [clock (ticks w)]) 3).
Proof.
  intros Hmin Hk0 Hk1 Hread.
  rewrite canMakeRequest_unfold. cbv zeta.
  assert (Hhour : within (clock (S (ticks w))) 3600000 (window_of w identifier)
                  = window_of w identifier).
  { apply filter_keeps_all. intros ts Hts.
    destruct (Hread ts Hts) as (i & Hi & ->).
    specialize (Hmin i (S (ticks w))). lia. }
  rewrite Hhour.
  assert (Hminute : within (clock (S (S (ticks w)))) 60000 (window_of w identifier)
                    = window_of w identifier).
  { apply filter_keeps_all. intros ts Hts.
    destruct (Hread ts Hts) as (i & Hi & ->).
    specialize (Hmin i (S (S (ticks w)))). lia. }
  rewrite Hminute.
  repeat case_bool_decide; first [reflexivity | lia].
Qed.

(** [n] admitted checks followed by a rejected one, when the window holds
    [20 - n] requests at the start. *)
Lemma repeat_until_minute_limit (k0 k1 : nat) (identifier : string) (n : nat) :
  within_one_minute clock k0 k1 ->
  forall w : World,
    (k0 <= ticks w)%nat -> (ticks w + 3 * S n <= k1)%nat ->
    read_between clock k0 k1 (window_of w identifier) ->
    (length (window_of w identifier) + n = 20)%nat ->
    fst (repeatM (S n) (RateLimiter.canMakeRequest clock identifier) w)
    = Returned (replicate n allowedResult ++ [minuteRejection]).
Proof.
  intros Hmin. induction n as [|n IH]; intros w Hk0 Hk1 Hread Hlen.
  - simpl. unfold bind.
    rewrite (canMakeRequest_within_minute k0 k1) by (done || lia).
    rewrite bool_decide_eq_true_2 by lia. reflexivity.
  - change (repeatM (S (S n)) ?m)
      with (bind m (fun a => bind (repeatM (S n) m) (fun r => ret (a :: r)))).
    unfold bind at 1.
    rewrite (canMakeRequest_within_minute k0 k1) by (done || lia).
    rewrite bool_decide_eq_false_2 by lia.
    unfold bind at 1.
    set (w1 := recorded w identifier (window_of w identifier ++ [clock (ticks w)]) 3).
    assert (HIH : fst (repeatM (S n) (RateLimiter.canMakeRequest clock identifier) w1)
                  = Returned (replicate n allowedResult ++ [minuteRejection])).
    { apply IH.
      - unfold w1, recorded. simpl. lia.
      - unfold w1, recorded. simpl. lia.
      - unfold w1. rewrite window_of_recorded. intros ts Hts.
        apply elem_of_app in Hts as [Hts|Hts]; [by apply Hread|].
        apply list_elem_of_singleton in Hts as ->.
        exists (ticks w). split; [lia|done].
      - unfold w1. rewrite window_of_recorded, length_app. simpl. lia. }
    destruct (repeatM (S n) (RateLimiter.canMakeRequest clock identifier) w1)
      as [[r|e] w2]; simpl in HIH; [|discriminate].
    injection HIH as ->. reflexivity.
Qed.

End RateLimiterFacts.

(** C1.  The admission check is the sliding-window algorithm: with the
    three readings of the clock it takes, it prunes the window to the
    timestamps less than an hour old, counts those of the pruned window
    that are less than 60 seconds old, rejects with the minute reason when
    that count is at least 20, otherwise rejects with the hour reason when
    the pruned window holds at least 300 timestamps, and otherwise appends
    the current instant and allows.  Starting from an empty window, of 21
    checks made within one minute the first 20 are allowed and the 21st is
    rejected with a message containing "20 requests per minute". *)
Theorem canMakeRequest_sliding_window
  (clock : nat -> Z) (identifier : string) (w : World) :
  (let now := clock (ticks w) in
   let pruned := within (clock (S (ticks w))) 3600000 (window_of w identifier) in
   let minuteCount := length (within (clock (S (S (ticks w)))) 60000 pruned) in
   RateLimiter.canMakeRequest clock identifier w =
     if bool_decide (20 <= Z.of_nat minuteCount) then
       (Returned {| RateLimiter.allowed := false;
                    RateLimiter.error :=
                      Some "Rate limit exceeded: 20 requests per minute" |},
        recorded w identifier pruned 3)
     else if bool_decide (300 <= Z.of_nat (length pruned)) then
       (Returned {| RateLimiter.allowed := false;
                    RateLimiter.error :=
                      Some "Rate limit exceeded: 300 requests per hour" |},
        recorded w identifier pruned 3)
     else
       (Returned {| RateLimiter.allowed := true; RateLimiter.error := None |},
        recorded w identifier (pruned ++ [now]) 3))
  /\ (window_of w identifier = [] ->
      within_one_minute clock (ticks w) (ticks w + 63) ->
      exists message : string,
        fst (repeatM 21 (RateLimiter.canMakeRequest clock identifier) w)
        = Returned
            (replicate 20 {| RateLimiter.allowed := true;
                             RateLimiter.error := None |}
             ++ [{| RateLimiter.allowed := false;
                    RateLimiter.error := Some message |}])
        /\ includes "20 requests per minute" message = true).
Proof.
  split.
  - apply canMakeRequest_unfold.
  - intros Hempty Hmin.
    exists "Rate limit exceeded: 20 requests per minute". split; [|reflexivity].
    apply (repeat_until_minute_limit clock (ticks w) (ticks w + 63) identifier 20 Hmin).
    + lia.
    + lia.
    + rewrite Hempty. intros ts Hts. by apply elem_of_nil in Hts.
    + rewrite Hempty. reflexivity.
Qed.

Lemma canMakeRequest_sliding_window_witness :
  exists message : string,
    fst (repeatM 21 (RateLimiter.canMakeRequest sampleClock "x") emptyWorld)
    = Returned
        (replicate 20 {| RateLimiter.allowed := true; RateLimiter.error := None |}
         ++ [{| RateLimiter.allowed := false;
                RateLimiter.error := Some message |}])
    /\ includes "20 requests per minute" message = true.
Proof.
  apply (proj2 (canMakeRequest_sliding_window sampleClock "x" emptyWorld)).
  - reflexivity.
  - intros i j Hi Hj. unfold sampleClock. simpl in Hi, Hj. lia.
Defined.

(** C8.  Reading the remaining counts changes neither the windows nor
    anything else but the number of clock readings taken; for each window
    it reports the limit minus the number of recorded requests inside the
    window, and never a negative number.  An identifier never seen reports
    20 and 300, and after exactly one successful check within the windows
    the report is 19 and 299. *)
Theorem getRemainingRequests_reports
  (clock : nat -> Z) (identifier : string) (w : World) :
  (windows (snd (RateLimiter.getRemainingRequests clock identifier w)) = windows w
   /\ calls (snd (RateLimiter.getRemainingRequests clock identifier w)) = calls w)
  /\ (exists r : RateLimiter.Remaining,
        fst (RateLimiter.getRemainingRequests clock identifier w) = Returned r
        /\ RateLimiter.minute r
           = Z.max 0 (20 - Z.of_nat (length
               (within (clock (S (ticks w))) 60000 (window_of w identifier))))
        /\ RateLimiter.hour r
           = Z.max 0 (300 - Z.of_nat (length
               (within (clock (S (S (ticks w)))) 3600000 (window_of w identifier))))
        /\ 0 <= RateLimiter.minute r /\ 0 <= RateLimiter.hour r)
  /\ (windows w !! identifier = None ->
      RateLimiter.getRemainingRequests clock identifier w
      = (Returned {| RateLimiter.minute := 20; RateLimiter.hour := 300 |}, w))
  /\ (window_of w identifier = [] ->
      clock (ticks w + 4)%nat - clock (ticks w) < 60000 ->
      clock (ticks w + 5)%nat - clock (ticks w) < 3600000 ->
      exists w1 : World,
        RateLimiter.canMakeRequest clock identifier w
        = (Returned {| RateLimiter.allowed := true; RateLimiter.error := None |}, w1)
        /\ fst (RateLimiter.getRemainingRequests clock identifier w1)
           = Returned {| RateLimiter.minute := 19; RateLimiter.hour := 299 |}).
Proof.
  repeat split.
  - rewrite getRemainingRequests_unfold.
    by destruct (windows w !! identifier).
  - rewrite getRemainingRequests_unfold.
    by destruct (windows w !! identifier).
  - rewrite getRemainingRequests_unfold. unfold window_of.
    destruct (windows w !! identifier) as [win|]; simpl.
    + eexists. split; [reflexivity|]. simpl. repeat split; lia.
    + eexists. split; [reflexivity|]. simpl. repeat split; lia.
  - intros Hnone. rewrite getRemainingRequests_unfold. by rewrite Hnone.
  - intros Hempty Hminute Hhour.
    rewrite canMakeRequest_unfold. cbv zeta. rewrite Hempty.
    unfold within at 1 2 3 4 5. simpl.
    eexists. split; [reflexivity|].
    rewrite getRemainingRequests_unfold.
    unfold recorded at 1. simpl. rewrite lookup_insert_eq. simpl.
    replace (S (S (ticks w + 3))) with (ticks w + 5)%nat by lia.
    replace (S (ticks w + 3)) with (ticks w + 4)%nat by lia.
    unfold within.
    rewrite !filter_cons_True by lia. reflexivity.
Qed.

Lemma getRemainingRequests_reports_witness :
  RateLimiter.getRemainingRequests sampleClock "x" emptyWorld
  = (Returned {| RateLimiter.minute := 20; RateLimiter.hour := 300 |}, emptyWorld)
  /\ exists w1 : World,
       RateLimiter.canMakeRequest sampleClock "x" emptyWorld
       = (Returned {| RateLimiter.allowed := true; RateLimiter.error := None |}, w1)
       /\ fst (RateLimiter.getRemainingRequests sampleClock "x" w1)
          = Returned {| RateLimiter.minute := 19; RateLimiter.hour := 299 |}.
Proof.
  destruct (getRemainingRequests_reports sampleClock "x" emptyWorld)
    as (_ & _ & Hfresh & Hone).
  split.
  - apply Hfresh. reflexivity.
  - apply Hone.
    + reflexivity.
    + unfold sampleClock. simpl. lia.
    + unfold sampleClock. simpl. lia.
Defined.

Lemma within_within (now t windowMs : Z) (l : list Z) :
  t <= now -> windowMs <= 3600000 ->
  within now windowMs (within t 3600000 l) = within now windowMs l.
Proof.
  intros Hnow Hwin. unfold within.
  apply list_filter_filter_l. intros ts Hts. lia.
Qed.

(** After a rejected check the reports are those of the state before it,
    at every later instant. *)
Lemma rejected_check_reports
  (clock : nat -> Z) (identifier : string) (w : World) (k n : nat) :
  window_of w identifier ≠ [] ->
  clock (S (ticks w)) <= clock (S k) ->
  clock (S (ticks w)) <= clock (S (S k)) ->
  fst (RateLimiter.getRemainingRequests clock identifier
         (at_tick k (recorded w identifier
            (within (clock (S (ticks w))) 3600000 (window_of w identifier)) n)))
  = fst (RateLimiter.getRemainingRequests clock identifier (at_tick k w)).
Proof.
  intros Hknown Hminute Hhour.
  rewrite !getRemainingRequests_unfold. unfold window_of in *. simpl.
  rewrite lookup_insert_eq.
  destruct (windows w !! identifier) as [win|]; simpl in *; [|done].
  by rewrite !within_within by lia.
Qed.

(** C10.  A check that returns allowed=false appends nothing: it leaves
    the window of the identifier as the old one without the entries
    already older than one hour, so that the requests counted in any
    window of at most an hour, and the values reported by remaining, are
    from then on those of the state before the call; the instant of the
    call is appended only when the check returns allowed=true; and no
    check touches the window of another identifier. *)
Theorem rejected_check_consumes_no_quota
  (clock : nat -> Z) (identifier : string) (w w' : World)
  (r : RateLimiter.CheckResult) :
  RateLimiter.canMakeRequest clock identifier w = (Returned r, w') ->
  let pruned := within (clock (S (ticks w))) 3600000 (window_of w identifier) in
  (RateLimiter.allowed r = false ->
     window_of w' identifier = pruned
     /\ (forall now windowMs : Z,
           clock (S (ticks w)) <= now -> windowMs <= 3600000 ->
           within now windowMs (window_of w' identifier)
           = within now windowMs (window_of w identifier))
     /\ (forall k : nat,
           clock (S (ticks w)) <= clock (S k) ->
           clock (S (ticks w)) <= clock (S (S k)) ->
           fst (RateLimiter.getRemainingRequests clock identifier (at_tick k w'))
           = fst (RateLimiter.getRemainingRequests clock identifier (at_tick k w))))
  /\ (RateLimiter.allowed r = true ->
      window_of w' identifier = pruned ++ [clock (ticks w)])
  /\ (forall other : string,
        other ≠ identifier -> windows w' !! other = windows w !! other).
Proof.
  intros Hcall pruned.
  rewrite canMakeRequest_unfold in Hcall. cbv zeta in Hcall. fold pruned in Hcall.
  assert (Hknown : pruned ≠ [] -> window_of w identifier ≠ []).
  { intros Hp He. apply Hp. unfold pruned. by rewrite He. }
  assert (Hother : forall (rs : list Z) (other : string),
             other ≠ identifier ->
             windows (recorded w identifier rs 3) !! other = windows w !! other).
  { intros rs other Hne. unfold recorded. simpl. by rewrite lookup_insert_ne. }
  repeat case_bool_decide; injection Hcall as <- <-; simpl.
  - split; [intros _|split; [discriminate|by apply Hother]].
    rewrite window_of_recorded.
    split; [done|split].
    + intros now windowMs Hnow Hwin. by apply within_within.
    + intros k Hm Hh. apply rejected_check_reports; [|done..].
      apply Hknown. intros He. rewrite He in *. simpl in *. lia.
  - split; [intros _|split; [discriminate|by apply Hother]].
    rewrite window_of_recorded.
    split; [done|split].
    + intros now windowMs Hnow Hwin. by apply within_within.
    + intros k Hm Hh. apply rejected_check_reports; [|done..].
      apply Hknown. intros He. rewrite He in *. simpl in *. lia.
  - split; [discriminate|split; [intros _|by apply Hother]].
    by rewrite window_of_recorded.
Qed.

Lemma rejected_check_consumes_no_quota_witness :
  window_of (snd (RateLimiter.canMakeRequest sampleClock "x" fullWorld)) "x"
  = within (sampleClock 1) 3600000 (window_of fullWorld "x").
Proof.
  refine (proj1 (proj1 (rejected_check_consumes_no_quota sampleClock "x" fullWorld
            (snd (RateLimiter.canMakeRequest sampleClock "x" fullWorld))
            minuteRejection _) _)).
  - vm_compute. reflexivity.
  - reflexivity.
Defined.

(** ** Document validation *)

(** C4.  A buffer whose first four bytes are not %PDF is invalid with the
    reason "Invalid PDF format", whatever its length; a buffer with the
    %PDF prefix and more than 10 MiB is invalid with a reason containing
    "too large"; a buffer with the prefix and at most 10 MiB is valid. *)
Theorem validatePDF_decides (buffer : list byte) :
  (take 4 buffer ≠ PDFService.pdfMagic ->
   PDFService.validatePDF buffer
   = {| PDFService.isValid := false;
        PDFService.error := Some "Invalid PDF format" |})
  /\ (take 4 buffer = PDFService.pdfMagic ->
      Z.of_nat (length buffer) > 10 * 1024 * 1024 ->
      exists reason : string,
        PDFService.validatePDF buffer
        = {| PDFService.isValid := false; PDFService.error := Some reason |}
        /\ includes "too large" reason = true)
  /\ (take 4 buffer = PDFService.pdfMagic ->
      Z.of_nat (length buffer) <= 10 * 1024 * 1024 ->
      PDFService.validatePDF buffer
      = {| PDFService.isValid := true; PDFService.error := None |}).
Proof.
  unfold PDFService.validatePDF.
  repeat split.
  - intros Hhead. by rewrite bool_decide_eq_true_2.
  - intros Hhead Hlen.
    rewrite bool_decide_eq_false_2 by (intros Hne; by apply Hne).
    rewrite bool_decide_eq_true_2 by done.
    eexists. split; reflexivity.
  - intros Hhead Hlen.
    rewrite bool_decide_eq_false_2 by (intros Hne; by apply Hne).
    rewrite bool_decide_eq_false_2 by lia.
    reflexivity.
Qed.

Lemma validatePDF_decides_witness :
  PDFService.validatePDF fakePdf
  = {| PDFService.isValid := false;
       PDFService.error := Some "Invalid PDF format" |}
  /\ (exists reason : string,
        PDFService.validatePDF oversizedPdf
        = {| PDFService.isValid := false; PDFService.error := Some reason |}
        /\ includes "too large" reason = true)
  /\ PDFService.validatePDF samplePdf
     = {| PDFService.isValid := true; PDFService.error := None |}.
Proof.
  split; [|split].
  - apply (proj1 (validatePDF_decides fakePdf)). discriminate.
  - apply (proj1 (proj2 (validatePDF_decides oversizedPdf))).
    + reflexivity.
    + unfold oversizedPdf. cbn [length]. rewrite length_replicate. lia.
  - apply (proj2 (proj2 (validatePDF_decides samplePdf))).
    + reflexivity.
    + simpl. lia.
Defined.

(** ** Text cleaning *)

Section CleanText.
Import JSString PDFService.
Local Open Scope N_scope.

Lemma singleSpaced_weaken (b : bool) (s : jsstring) :
  singleSpaced b s -> singleSpaced false s.
Proof.
  destruct s as [|c r]; [done|]. simpl.
  destruct (isWhiteSpace c); [|done]. intros (? & ? & ?). done.
Qed.

Lemma collapseFrom_singleSpaced (s : jsstring) :
  forall b : bool, singleSpaced b (collapseFrom b s).
Proof.
  induction s as [|c r IH]; intros b; [done|]. simpl.
  destruct (isWhiteSpace c) eqn:Hc.
  - destruct b; [apply IH|]. simpl. split; [done|]. split; [done|apply IH].
  - simpl. rewrite Hc. apply IH.
Qed.

Lemma collapseFrom_fixed (s : jsstring) :
  forall b : bool, singleSpaced b s -> collapseFrom b s = s.
Proof.
  induction s as [|c r IH]; intros b; [done|]. simpl.
  destruct (isWhiteSpace c).
  - intros (-> & -> & Hr). by rewrite (IH true Hr).
  - intros Hr. by rewrite (IH false Hr).
Qed.

Lemma replaceLineBreaks_fixed (s : jsstring) :
  forall b : bool, singleSpaced b s -> replaceLineBreaks s = s.
Proof.
  induction s as [|c r IH]; intros b; [done|]. simpl.
  destruct (c =? CR) eqn:Hcr.
  { apply N.eqb_eq in Hcr as ->. simpl. intros (? & _). discriminate. }
  destruct (c =? LF) eqn:Hlf.
  { apply N.eqb_eq in Hlf as ->. simpl. intros (? & _). discriminate. }
  destruct (isWhiteSpace c).
  - intros (_ & _ & Hr). by rewrite (IH true Hr).
  - intros Hr. by rewrite (IH false Hr).
Qed.

Lemma dropWhile_singleSpaced (s : jsstring) :
  forall b : bool,
    singleSpaced b s ->
    singleSpaced false (dropWhile isWhiteSpace s)
    /\ startsClean (dropWhile isWhiteSpace s).
Proof.
  induction s as [|c r IH]; intros b; [done|]. simpl.
  destruct (isWhiteSpace c) eqn:Hc.
  - intros (_ & _ & Hr). by apply (IH true).
  - intros Hr. simpl. by rewrite Hc.
Qed.

Lemma trimEnd_singleSpaced (s : jsstring) :
  forall b : bool, singleSpaced b s -> singleSpaced b (trimEnd s).
Proof.
  induction s as [|c r IH]; intros b; [done|]. simpl.
  destruct (isWhiteSpace c) eqn:Hc.
  - intros (-> & -> & Hr). specialize (IH true Hr).
    destruct (trimEnd r) as [|d k]; [done|].
    change (singleSpaced false (SPACE :: d :: k)) with
      (SPACE = SPACE /\ false = false /\ singleSpaced true (d :: k)).
    done.
  - intros Hr. specialize (IH false Hr).
    destruct (trimEnd r) as [|d k].
    + simpl. by rewrite Hc.
    + change (singleSpaced b (c :: d :: k)) with
        (if isWhiteSpace c then c = SPACE /\ b = false /\ singleSpaced true (d :: k)
         else singleSpaced false (d :: k)).
      by rewrite Hc.
Qed.

Lemma trimEnd_startsClean (s : jsstring) :
  startsClean s -> startsClean (trimEnd s).
Proof.
  destruct s as [|c r]; [done|]. simpl. intros Hc. rewrite Hc.
  by destruct (trimEnd r).
Qed.

Lemma trimEnd_idempotent (s : jsstring) : trimEnd (trimEnd s) = trimEnd s.
Proof.
  induction s as [|c r IH]; [done|]. simpl.
  destruct (trimEnd r) as [|d k] eqn:Hr.
  - destruct (isWhiteSpace c) eqn:Hc; [done|]. simpl. by rewrite Hc.
  - change (trimEnd (c :: d :: k)) with
      (match trimEnd (d :: k) with
       | [] => if isWhiteSpace c then [] else [c]
       | kept => c :: kept
       end).
    by rewrite IH.
Qed.

Lemma trimStart_fixed (s : jsstring) : startsClean s -> trimStart s = s.
Proof.
  destruct s as [|c r]; [done|]. unfold trimStart. simpl. by intros ->.
Qed.

(** What a cleaned text looks like, and that cleaning leaves such a text
    as it is. *)
Lemma cleanText_shape (s : jsstring) :
  singleSpaced false (cleanText s)
  /\ startsClean (cleanText s)
  /\ trimEnd (cleanText s) = cleanText s.
Proof.
  unfold cleanText, trim, trimStart, collapseWhiteSpace.
  destruct (dropWhile_singleSpaced _ false
              (collapseFrom_singleSpaced (replaceLineBreaks s) false))
    as [Hss Hsc].
  split; [by apply trimEnd_singleSpaced|].
  split; [by apply trimEnd_startsClean|].
  apply trimEnd_idempotent.
Qed.

Lemma cleanText_fixed (s : jsstring) :
  singleSpaced false s -> startsClean s -> trimEnd s = s -> cleanText s = s.
Proof.
  intros Hss Hsc Hte. unfold cleanText, collapseWhiteSpace, trim.
  rewrite (replaceLineBreaks_fixed s false Hss).
  rewrite (collapseFrom_fixed s false Hss).
  by rewrite (trimStart_fixed s Hsc).
Qed.

End CleanText.

(** C9.  [cleanText] is idempotent: cleaning a cleaned text gives the
    same text, where [cleanText] replaces every line break (CR LF, CR or
    LF) by a space, then every run of white space by one space, then
    trims white space at both ends. *)
Theorem cleanText_idempotent (s : jsstring) :
  PDFService.cleanText (PDFService.cleanText s) = PDFService.cleanText s
  /\ PDFService.cleanText s
     = JSString.trim (PDFService.collapseWhiteSpace (PDFService.replaceLineBreaks s)).
Proof.
  split; [|reflexivity].
  destruct (cleanText_shape s) as (Hss & Hsc & Hte).
  by apply cleanText_fixed.
Qed.

(** ** The analysis procedure *)

Section Analysis.
Import JSString PDFService AIService Router.

Lemma extractBoth_resolved (P : Platform) (a b : list byte) (da db : PdfData) (w : World) :
  pdf P a = inr da -> pdf P b = inr db ->
  extractBoth P a b w
  = (Returned ({| text := data_text da; pageCount := data_numpages da |},
               {| text := data_text db; pageCount := data_numpages db |}),
     extracted w a b).
Proof.
  intros Ha Hb.
  unfold extractBoth, extractText, bind, log_call. simpl.
  rewrite Ha, Hb. reflexivity.
Qed.

(** The procedure up to the configuration check, for two valid documents
    with readable text. *)
Lemma analyze_try_documents_ok
  (P : Platform) (jd cv : list byte) (djd dcv : PdfData) (w : World) :
  isValid (validatePDF jd) = true -> isValid (validatePDF cv) = true ->
  pdf P jd = inr djd -> pdf P cv = inr dcv ->
  trim (cleanText (data_text djd)) ≠ [] ->
  trim (cleanText (data_text dcv)) ≠ [] ->
  analyze_try P jd cv w
  = (config <- AIService.lift (validateAIConfiguration (env P)) ;;
     analysis <- analyzeCandidate P (constructor (env P) (token config))
                   (cleanText (data_text dcv)) (cleanText (data_text djd)) ;;
     timestamp <- now_iso P ;;
     remaining <- AIService.getRemainingRequests P ;;
     ret {| analysis := analysis;
            metadata :=
              {| jobDescriptionPages := data_numpages djd;
                 cvPages := data_numpages dcv;
                 analysisTimestamp := timestamp;
                 remainingRequests := remaining;
                 endpointUsed :=
                   if useWolf_ config then "Wolf" else "Google Gemini" |} |})
      (extracted w jd cv).
Proof.
  intros Hjd Hcv Hpjd Hpcv Htjd Htcv.
  unfold analyze_try. rewrite Hjd, Hcv.
  change (negb true) with false. cbv iota.
  unfold bind at 1.
  rewrite (extractBoth_resolved P jd cv djd dcv w Hpjd Hpcv).
  cbv iota beta. cbn [text pageCount].
  rewrite bool_decide_eq_false_2 by done.
  rewrite bool_decide_eq_false_2 by done.
  reflexivity.
Qed.

(** The report of the limiter, written with the window of the
    identifier, known or not. *)
Lemma getRemainingRequests_value (clock : nat -> Z) (identifier : string) (w : World) :
  fst (RateLimiter.getRemainingRequests clock identifier w)
  = Returned
      {| RateLimiter.minute :=
           Z.max 0 (20 - Z.of_nat (length
             (within (clock (S (ticks w))) 60000 (window_of w identifier))));
         RateLimiter.hour :=
           Z.max 0 (300 - Z.of_nat (length
             (within (clock (S (S (ticks w)))) 3600000
                (window_of w identifier)))) |}.
Proof.
  rewrite getRemainingRequests_unfold. unfold window_of.
  by destruct (windows w !! identifier) as [win|].
Qed.

(** The gateway step, when the limiter admits the request and the
    endpoint replies with a text that can be normalised: the request
    resumes in the world that the other requests leave. *)
Lemma analyzeCandidate_admitted
  (P : Platform) (svc : AIService.t) (cvText jdText reply : jsstring)
  (result : AnalysisResult) (w : World) :
  admits (clock P) w ->
  axios_post P (request_of svc (buildAnalysisPrompt cvText jdText))
  = inr (Some reply) ->
  reply ≠ [] ->
  parseAIResponse P reply = inr result ->
  analyzeCandidate P svc cvText jdText w
  = (Returned result,
     meanwhile P
       (suspended P w (request_of svc (buildAnalysisPrompt cvText jdText)))).
Proof.
  intros [Hminute Hhour] Hpost Hreply Hparse.
  unfold prunedWindow in Hminute, Hhour.
  unfold analyzeCandidate. unfold bind at 1.
  rewrite canMakeRequest_unfold. cbv zeta.
  rewrite bool_decide_eq_false_2 by lia.
  rewrite bool_decide_eq_false_2 by lia.
  change (negb (RateLimiter.allowed allowedResult)) with false. cbv iota.
  unfold try_catch, bind, log_call, suspend, recorded.
  cbn [windows ticks calls].
  rewrite Hpost. unfold AIService.lift at 1. unfold ret at 1.
  destruct reply as [|c reply']; [done|].
  rewrite Hparse. reflexivity.
Qed.

(** A whole successful analysis: the response is assembled in the world
    in which the request resumes. *)
Lemma analyze_succeeds
  (P : Platform) (jd cv : list byte) (djd dcv : PdfData) (cfg : Config)
  (reply : jsstring) (result : AnalysisResult) (w : World) :
  let resumed :=
    meanwhile P (suspended P (extracted w jd cv) (requestFor P cfg djd dcv)) in
  documentsReadable P jd cv djd dcv ->
  validateAIConfiguration (env P) = inr cfg ->
  admits (clock P) w ->
  axios_post P (requestFor P cfg djd dcv) = inr (Some reply) ->
  reply ≠ [] ->
  parseAIResponse P reply = inr result ->
  fst (analyzeCandidateMatch P jd cv w)
  = Returned
      {| analysis := result;
         metadata :=
           {| jobDescriptionPages := data_numpages djd;
              cvPages := data_numpages dcv;
              analysisTimestamp := toISOString P (clock P (ticks resumed));
              remainingRequests :=
                {| RateLimiter.minute :=
                     Z.max 0 (20 - Z.of_nat (length
                       (within (clock P (ticks resumed + 2)%nat) 60000
                          (window_of resumed RateLimiter.default_identifier))));
                   RateLimiter.hour :=
                     Z.max 0 (300 - Z.of_nat (length
                       (within (clock P (ticks resumed + 3)%nat) 3600000
                          (window_of resumed RateLimiter.default_identifier)))) |};
              endpointUsed := if useWolf_ cfg then "Wolf" else "Google Gemini" |} |}.
Proof.
  intros resumed (Hjd & Hcv & Hpjd & Hpcv & Htjd & Htcv) Hcfg Hadmits
    Hpost Hreply Hparse.
  unfold analyzeCandidateMatch, try_catch.
  rewrite (analyze_try_documents_ok P jd cv djd dcv w) by done.
  rewrite Hcfg. unfold bind at 1. unfold AIService.lift at 1. unfold ret at 1.
  unfold bind at 1.
  rewrite (analyzeCandidate_admitted P _ _ _ reply result) by done.
  fold (requestFor P cfg djd dcv). fold resumed.
  unfold bind at 1. unfold now_iso, bind at 1, RateLimiter.Date_now, ret at 1.
  unfold bind at 1. unfold AIService.getRemainingRequests.
  pose proof (getRemainingRequests_value (clock P) RateLimiter.default_identifier
                {| windows := windows resumed;
                   ticks := S (ticks resumed);
                   calls := calls resumed |}) as Hreport.
  destruct (RateLimiter.getRemainingRequests _ _ _) as [[remaining|e] w'];
    cbn [fst] in Hreport; [|discriminate].
  injection Hreport as ->. unfold ret, window_of. cbn [fst windows ticks].
  replace (S (S (S (ticks resumed)))) with (ticks resumed + 3)%nat by lia.
  replace (S (S (ticks resumed))) with (ticks resumed + 2)%nat by lia.
  reflexivity.
Qed.

End Analysis.

(** C6.  When the first four bytes of the CV are not %PDF, the procedure
    throws a BAD_REQUEST error whose message is the same on every
    platform, whatever the extraction and the gateway would do, and it
    leaves the world as it was: no extraction and no gateway call is
    started, no clock is read and no window is touched.  When the job
    description is valid the message names the CV. *)
Theorem invalid_cv_fails_before_extraction (jobDescription cv : list byte) :
  take 4 cv ≠ PDFService.pdfMagic ->
  exists message : string,
    (forall (P : Platform) (w : World),
       Router.analyzeCandidateMatch P jobDescription cv w
       = (Thrown (TRPCError BAD_REQUEST message), w))
    /\ (PDFService.isValid (PDFService.validatePDF jobDescription) = true ->
        message = "CV PDF error: Invalid PDF format").
Proof.
  intros Hcv.
  assert (Hv : PDFService.validatePDF cv
               = {| PDFService.isValid := false;
                    PDFService.error := Some "Invalid PDF format" |}).
  { unfold PDFService.validatePDF. by rewrite bool_decide_eq_true_2. }
  destruct (PDFService.isValid (PDFService.validatePDF jobDescription)) eqn:Hjd.
  - exists "CV PDF error: Invalid PDF format". split; [|done].
    intros P w.
    unfold Router.analyzeCandidateMatch, try_catch, Router.analyze_try.
    rewrite Hjd, Hv. reflexivity.
  - exists ("Job description PDF error: "
            +:+ default "undefined"
                  (PDFService.error (PDFService.validatePDF jobDescription))).
    split; [|done].
    intros P w.
    unfold Router.analyzeCandidateMatch, try_catch, Router.analyze_try.
    rewrite Hjd. reflexivity.
Qed.

Lemma invalid_cv_fails_before_extraction_witness :
  exists message : string,
    (forall (P : Platform) (w : World),
       Router.analyzeCandidateMatch P samplePdf fakePdf w
       = (Thrown (TRPCError BAD_REQUEST message), w))
    /\ (PDFService.isValid (PDFService.validatePDF samplePdf) = true ->
        message = "CV PDF error: Invalid PDF format").
Proof.
  apply (invalid_cv_fails_before_extraction samplePdf fakePdf).
  discriminate.
Defined.

(** C3, as the code has it.  Nothing fails when the process starts, and
    the constructor of the service takes the empty string for a missing
    credential; a missing credential for the selected endpoint makes
    every request whose two documents are valid and readable fail with
    an INTERNAL_SERVER_ERROR that names the credential, after the two
    extractions and before the admission check and the gateway call. *)
Theorem missing_credential_fails_each_request
  (P : Platform) (jobDescription cv : list byte) (djd dcv : PdfData) (w : World) :
  credentialMissing (env P) = true ->
  PDFService.isValid (PDFService.validatePDF jobDescription) = true ->
  PDFService.isValid (PDFService.validatePDF cv) = true ->
  pdf P jobDescription = inr djd -> pdf P cv = inr dcv ->
  JSString.trim (PDFService.cleanText (data_text djd)) ≠ [] ->
  JSString.trim (PDFService.cleanText (data_text dcv)) ≠ [] ->
  (exists w0 : World, startup (env P) = inr w0)
  /\ (if useWolf (env P)
      then AIService.authToken
             (AIService.constructor (env P) (GEMINI_WOLF_AUTH_TOKEN (env P))) = ""
      else AIService.apiKey (AIService.constructor (env P) None) = "")
  /\ Router.analyzeCandidateMatch P jobDescription cv w
     = (Thrown (TRPCError INTERNAL_SERVER_ERROR
                  (if useWolf (env P)
                   then "Wolf endpoint auth token not configured"
                   else "Google Gemini API key not configured")),
        extracted w jobDescription cv).
Proof.
  intros Hmiss Hjd Hcv Hpjd Hpcv Htjd Htcv.
  split; [by eexists|].
  split.
  { unfold credentialMissing, missing in Hmiss. unfold AIService.constructor.
    destruct (useWolf (env P)); apply bool_decide_eq_true_1 in Hmiss; simpl.
    - destruct (GEMINI_WOLF_AUTH_TOKEN (env P)) as [tok|]; simpl in *; [|done].
      by destruct (bool_decide (tok = "")).
    - done. }
  unfold Router.analyzeCandidateMatch, try_catch.
  rewrite (analyze_try_documents_ok P jobDescription cv djd dcv w) by done.
  unfold bind at 1. unfold Router.validateAIConfiguration.
  unfold credentialMissing in Hmiss.
  destruct (useWolf (env P)); rewrite Hmiss; reflexivity.
Qed.

Lemma missing_credential_fails_each_request_witness :
  Router.analyzeCandidateMatch unconfiguredPlatform samplePdf samplePdf emptyWorld
  = (Thrown (TRPCError INTERNAL_SERVER_ERROR "Google Gemini API key not configured"),
     extracted emptyWorld samplePdf samplePdf).
Proof.
  refine (proj2 (proj2 (missing_credential_fails_each_request unconfiguredPlatform
                          samplePdf samplePdf _ _ emptyWorld _ _ _ _ _ _ _))).
  - reflexivity.
  - reflexivity.
  - reflexivity.
  - reflexivity.
  - reflexivity.
  - vm_compute. discriminate.
  - vm_compute. discriminate.
Defined.

(** C3, as stated, fails: without any credential the process starts, and
    a request with two valid, readable documents fails. *)
Lemma missing_credential_counterexample :
  credentialMissing (env unconfiguredPlatform) = true
  /\ startup (env unconfiguredPlatform) = inr emptyWorld
  /\ fst (Router.analyzeCandidateMatch unconfiguredPlatform samplePdf samplePdf
            emptyWorld)
     = Thrown (TRPCError INTERNAL_SERVER_ERROR
                 "Google Gemini API key not configured").
Proof. split; [|split]; vm_compute; reflexivity. Qed.

(** ** The metadata of a successful analysis *)

(** C7, as the code has it.  For two valid documents with readable text,
    a configured credential, a request that the limiter admits and a
    gateway reply that can be normalised, the procedure returns the
    normalised result with the page counts that the extraction gave for
    the two documents, and the reported minute count is 20 less the
    number of instants that the window of the shared limiter holds, when
    the request resumes after the gateway call, within the minute before
    the report (0 when that is negative).  That is the count reported
    before the call minus one under these provisos only: no other request
    changed the window between the report before the call and the
    admission, nor while this request awaited the gateway; the readings
    of the clock are in order and do not go back; the report is made less
    than a minute after the admission; and no request counted before the
    call has left the minute window by then. *)
Theorem analyze_success_metadata
  (P : Platform) (jd cv : list byte) (djd dcv : PdfData) (cfg : Router.Config)
  (reply : jsstring) (result : AIService.AnalysisResult) (w : World) :
  let atSuspension :=
    suspended P (extracted w jd cv) (requestFor P cfg djd dcv) in
  let resumed := meanwhile P atSuspension in
  let atReport := clock P (ticks resumed + 2)%nat in
  documentsReadable P jd cv djd dcv ->
  Router.validateAIConfiguration (env P) = inr cfg ->
  admits (clock P) w ->
  axios_post P (requestFor P cfg djd dcv) = inr (Some reply) ->
  reply ≠ [] ->
  AIService.parseAIResponse P reply = inr result ->
  exists response : Router.Response,
    fst (Router.analyzeCandidateMatch P jd cv w) = Returned response
    /\ Router.analysis response = result
    /\ Router.jobDescriptionPages (Router.metadata response) = data_numpages djd
    /\ Router.cvPages (Router.metadata response) = data_numpages dcv
    /\ RateLimiter.minute (Router.remainingRequests (Router.metadata response))
       = Z.max 0 (20 - Z.of_nat (length
           (within atReport 60000
              (window_of resumed RateLimiter.default_identifier))))
    /\ (forall (w0 : World) (pre : RateLimiter.Remaining),
          fst (AIService.getRemainingRequests P w0) = Returned pre ->
          (* between the report before the call and the admission *)
          window_of w RateLimiter.default_identifier
          = window_of w0 RateLimiter.default_identifier ->
          (ticks w0 <= ticks w)%nat ->
          (* while the request awaits the gateway *)
          window_of resumed RateLimiter.default_identifier
          = window_of atSuspension RateLimiter.default_identifier ->
          (ticks atSuspension <= ticks resumed)%nat ->
          (* the clock *)
          (forall i j : nat, (i <= j)%nat -> clock P i <= clock P j) ->
          atReport - clock P (ticks w) < 60000 ->
          (forall ts : Z, ts ∈ window_of w0 RateLimiter.default_identifier ->
             clock P (S (ticks w0)) - ts < 60000 -> atReport - ts < 60000) ->
          RateLimiter.minute (Router.remainingRequests (Router.metadata response))
          = RateLimiter.minute pre - 1).
Proof.
  intros atSuspension resumed atReport Hdocs Hcfg Hadmits Hpost Hreply Hparse.
  eexists. split.
  { apply (analyze_succeeds P jd cv djd dcv cfg reply result w); assumption. }
  cbn [Router.analysis Router.metadata Router.jobDescriptionPages Router.cvPages
       Router.remainingRequests RateLimiter.minute].
  fold atSuspension resumed atReport.
  repeat (split; [reflexivity|]).
  intros w0 pre Hpre Hbefore Hk Hquiet Hlater Hmono Hfast Hstay.
  unfold AIService.getRemainingRequests in Hpre.
  rewrite getRemainingRequests_value in Hpre. injection Hpre as <-.
  cbn [RateLimiter.minute].
  set (old := window_of w0 RateLimiter.default_identifier) in *.
  set (k := ticks w) in *.
  set (pruned := within (clock P (S k)) 3600000 old).
  destruct Hadmits as [Hminute _].
  unfold prunedWindow in Hminute. rewrite Hbefore in Hminute.
  fold k pruned in Hminute.
  assert (Hwindow : window_of resumed RateLimiter.default_identifier
                    = pruned ++ [clock P k]).
  { rewrite Hquiet. unfold atSuspension, suspended, window_of, prunedWindow.
    cbn [windows ticks extracted]. rewrite lookup_insert_eq.
    cbn [default requests].
    change (window_of (extracted w jd cv) RateLimiter.default_identifier)
      with (window_of w RateLimiter.default_identifier).
    by rewrite Hbefore. }
  assert (Hticks : (k + 3 <= ticks resumed)%nat).
  { unfold atSuspension, suspended in Hlater. cbn [ticks extracted] in Hlater.
    exact Hlater. }
  rewrite Hwindow.
  (* at the report the old requests counted are those counted before *)
  assert (Hsame : within atReport 60000 pruned
                  = within (clock P (S (ticks w0))) 60000 old).
  { unfold pruned.
    rewrite within_within by (try apply Hmono; lia).
    apply filter_agree. intros ts Hts. split.
    - intros Hin. specialize (Hmono (S (ticks w0)) (ticks resumed + 2)%nat).
      unfold atReport in Hin. lia.
    - by apply Hstay. }
  assert (Hcount : (length (within atReport 60000 pruned)
                    <= length (within (clock P (S (S k))) 60000 pruned))%nat).
  { apply filter_length_mono. intros ts _ Hin.
    specialize (Hmono (S (S k)) (ticks resumed + 2)%nat).
    unfold atReport. lia. }
  unfold within at 1. rewrite filter_app.
  rewrite (filter_cons_True _ (clock P k)) by lia.
  fold (within atReport 60000 pruned).
  rewrite length_app. simpl length. rewrite <- Hsame. lia.
Qed.

Lemma analyze_success_metadata_witness :
  exists response : Router.Response,
    fst (AIService.getRemainingRequests samplePlatform recentWorld)
    = Returned {| RateLimiter.minute := 19; RateLimiter.hour := 299 |}
    /\ fst (Router.analyzeCandidateMatch samplePlatform samplePdf shortPdf
              (snd (AIService.getRemainingRequests samplePlatform recentWorld)))
       = Returned response
    /\ Router.analysis response
       = {| AIService.overallMatch := JSON.Finite 85;
            AIService.strengths := [JSON.Str (js "TypeScript")];
            AIService.weaknesses := [];
            AIService.recommendations := [];
            AIService.keyAlignments := [];
            AIService.missingSkills := [];
            AIService.summary := JSON.Str (js "Analysis completed") |}
    /\ Router.jobDescriptionPages (Router.metadata response) = 9
    /\ Router.cvPages (Router.metadata response) = 5
    /\ RateLimiter.minute (Router.remainingRequests (Router.metadata response))
       = 19 - 1.
Proof.
  destruct (analyze_success_metadata samplePlatform samplePdf shortPdf
              {| data_text := js "hello  world"; data_numpages := 9 |}
              {| data_text := js "hello  world"; data_numpages := 5 |}
              {| Router.useWolf_ := false; Router.token := None |}
              sampleReply
              {| AIService.overallMatch := JSON.Finite 85;
                 AIService.strengths := [JSON.Str (js "TypeScript")];
                 AIService.weaknesses := [];
                 AIService.recommendations := [];
                 AIService.keyAlignments := [];
                 AIService.missingSkills := [];
                 AIService.summary := JSON.Str (js "Analysis completed") |}
              (snd (AIService.getRemainingRequests samplePlatform recentWorld)))
    as (response & Hreturn & Hresult & Hjd & Hcv & _ & Hminute).
  - repeat split; try reflexivity; vm_compute; discriminate.
  - reflexivity.
  - split; vm_compute; reflexivity.
  - reflexivity.
  - discriminate.
  - vm_compute. reflexivity.
  - exists response.
    split; [vm_compute; reflexivity|].
    split; [exact Hreturn|].
    split; [exact Hresult|].
    split; [exact Hjd|].
    split; [exact Hcv|].
    apply (Hminute recentWorld
             {| RateLimiter.minute := 19; RateLimiter.hour := 299 |}).
    + vm_compute. reflexivity.
    + vm_compute. reflexivity.
    + vm_compute. lia.
    + vm_compute. reflexivity.
    + vm_compute. lia.
    + intros i j Hij. simpl. unfold sampleClock. lia.
    + vm_compute. reflexivity.
    + intros ts Hts _. vm_compute in Hts.
      apply elem_of_cons in Hts as [->|Hts]; [|by apply elem_of_nil in Hts].
      vm_compute. reflexivity.
Defined.

(** C7, as stated, fails: a request recorded just under a minute before
    the report preceding the call has left the minute window when the
    call reports, and the reported count is 19 before and 19 after. *)
Lemma remaining_minute_counterexample :
  fst (AIService.getRemainingRequests slowPlatform slidingWorld)
  = Returned {| RateLimiter.minute := 19; RateLimiter.hour := 299 |}
  /\ reportedMinute
       (fst (Router.analyzeCandidateMatch slowPlatform samplePdf samplePdf
               (snd (AIService.getRemainingRequests slowPlatform slidingWorld))))
     = Some 19.
Proof. split; vm_compute; reflexivity. Qed.

(** The provisos on the other requests are needed as well: when another
    request is admitted while this one awaits the gateway, with a clock
    that advances by a millisecond at every reading and an empty window
    before the call, the reported count is 20 before the call and 18
    after it. *)
Example concurrent_admission_example :
  fst (AIService.getRemainingRequests crowdedPlatform emptyWorld)
  = Returned {| RateLimiter.minute := 20; RateLimiter.hour := 300 |}
  /\ reportedMinute
       (fst (Router.analyzeCandidateMatch crowdedPlatform samplePdf samplePdf
               (snd (AIService.getRemainingRequests crowdedPlatform emptyWorld))))
     = Some 18.
Proof. split; vm_compute; reflexivity. Qed.

(** ** The fuel of the JSON parser *)

Section ParserFuel.
Import JSString JSON.

Lemma dropWhile_length {A} (p : A -> bool) (l : list A) :
  (length (dropWhile p l) <= length l)%nat.
Proof. induction l as [|x l IH]; simpl; [lia|]. destruct (p x); simpl; lia. Qed.

Lemma skip_ws_length (s : jsstring) : (length (skip_ws s) <= length s)%nat.
Proof. apply dropWhile_length. Qed.

Lemma parse_chars_shorter (n : nat) :
  forall (s cs rest : jsstring),
    (length s <= n)%nat ->
    parse_chars s = Some (cs, rest) -> (length rest < length s)%nat.
Proof.
  induction n as [|n IH]; intros s cs rest Hn Hparse.
  - destruct s; [discriminate|simpl in Hn; lia].
  - destruct s as [|c r]; [discriminate|]. simpl in Hn, Hparse.
    repeat case_match; simplify_eq; simpl in *;
      try lia;
      match goal with
      | H : parse_chars ?t = Some (_, ?u) |- _ =>
          apply IH in H; simpl in *; lia
      end.
Qed.

Lemma digits_length (s : jsstring) :
  forall (acc : Z) (count : nat) (n : Z) (k : nat) (rest : jsstring),
    digits acc count s = (n, k, rest) -> (length rest <= length s)%nat.
Proof.
  induction s as [|c r IH]; intros acc count n k rest Hd; simpl in Hd.
  - by simplify_eq.
  - destruct (isDigit c).
    + apply IH in Hd. simpl. lia.
    + by simplify_eq.
Qed.

Lemma digits_shorter (c : N) (r : jsstring) (n : Z) (k : nat) (rest : jsstring) :
  isDigit c = true ->
  digits 0 0 (c :: r) = (n, k, rest) -> (length rest < length (c :: r))%nat.
Proof.
  intros Hc Hd. simpl in Hd. rewrite Hc in Hd.
  apply digits_length in Hd. simpl. lia.
Qed.

Lemma parse_unsigned_shorter (s : jsstring) (q : Q) (rest : jsstring) :
  parse_unsigned s = Some (q, rest) -> (length rest < length s)%nat.
Proof.
  unfold parse_unsigned. intros Hp.
  destruct s as [|c r]; [discriminate|].
  destruct (c =? 48)%N.
  - repeat case_match; simplify_eq;
      repeat match goal with
        | H : digits _ _ _ = _ |- _ => apply digits_length in H; simpl in H
        end;
      simpl in *; lia.
  - destruct (isDigit c) eqn:Hc; [|discriminate].
    destruct (digits 0 0 (c :: r)) as [[n0 k0] r0] eqn:Hint.
    apply (digits_shorter c r) in Hint; [|done].
    repeat case_match; simplify_eq;
      repeat match goal with
        | H : digits _ _ _ = _ |- _ => apply digits_length in H; simpl in H
        end;
      simpl in *; lia.
Qed.

Lemma parse_number_shorter (s : jsstring) (q : Q) (rest : jsstring) :
  parse_number s = Some (q, rest) -> (length rest < length s)%nat.
Proof.
  unfold parse_number. intros Hp.
  destruct s as [|c r]; [discriminate|].
  destruct (c =? 45)%N.
  - destruct (parse_unsigned r) as [[q' rest']|] eqn:Hu; [|discriminate].
    simplify_eq. apply parse_unsigned_shorter in Hu. simpl. lia.
  - by apply parse_unsigned_shorter in Hp.
Qed.

Lemma strip_prefix_length (lit s rest : jsstring) :
  strip_prefix lit s = Some rest -> (length rest + length lit = length s)%nat.
Proof.
  revert s. induction lit as [|a lit IH]; intros s Hs; simpl in Hs.
  - simplify_eq. simpl. lia.
  - destruct s as [|b s']; [discriminate|].
    destruct (a =? b)%N; [|discriminate].
    apply IH in Hs. simpl. lia.
Qed.

Ltac note_lengths :=
  repeat match goal with
    | H : skip_ws ?t = _ |- _ =>
        lazymatch goal with
        | _ : (length (skip_ws t) <= length t)%nat |- _ => fail
        | _ => pose proof (skip_ws_length t)
        end
    | H : parse_chars ?t = Some (_, _) |- _ =>
        apply (parse_chars_shorter (length t)) in H; [|lia]
    | H : parse_number ?t = Some (_, _) |- _ => apply parse_number_shorter in H
    | H : strip_prefix _ ?t = Some _ |- _ => apply strip_prefix_length in H
    end.

Lemma parse_fuel (fuel : nat) :
  (forall s, (2 * length s < fuel)%nat -> fits (parse_value fuel s) s)
  /\ (forall s, (2 * length s + 1 < fuel)%nat -> fits (parse_elements fuel s) s)
  /\ (forall s, (2 * length s + 1 < fuel)%nat -> fits (parse_members fuel s) s).
Proof.
  induction fuel as [|fuel (IHv & IHe & IHm)].
  { repeat split; intros s Hs; lia. }
  split; [|split]; intros s Hs.
  - destruct s as [|c r]; [exact I|]. simpl in Hs.
    cbn [parse_value].
    destruct (c =? 123)%N.
    { destruct (skip_ws r) as [|d r'] eqn:Hws; [exact I|].
      note_lengths. rewrite Hws in *. simpl in *.
      destruct (d =? 125)%N; [simpl; lia|].
      pose proof (IHm (d :: r') ltac:(simpl; lia)) as Hm.
      destruct (parse_members fuel (d :: r')); simpl in *; lia. }
    destruct (c =? 91)%N.
    { destruct (skip_ws r) as [|d r'] eqn:Hws; [exact I|].
      note_lengths. rewrite Hws in *. simpl in *.
      destruct (d =? 93)%N; [simpl; lia|].
      pose proof (IHe (d :: r') ltac:(simpl; lia)) as He.
      destruct (parse_elements fuel (d :: r')); simpl in *; lia. }
    repeat case_match; note_lengths; simpl in *; lia.
  - cbn [parse_elements].
    pose proof (skip_ws_length s) as Hws.
    pose proof (IHv (skip_ws s) ltac:(lia)) as Hv.
    destruct (parse_value fuel (skip_ws s)) as [v r| |]; simpl in Hv; [|exact I|done].
    destruct (skip_ws r) as [|c r'] eqn:Hr; [exact I|].
    note_lengths. rewrite Hr in *. simpl in *.
    destruct (c =? 44)%N.
    + pose proof (IHe r' ltac:(lia)) as He.
      destruct (parse_elements fuel r'); simpl in *; lia.
    + destruct (c =? 93)%N; simpl; lia.
  - cbn [parse_members].
    pose proof (skip_ws_length s) as Hws.
    destruct (skip_ws s) as [|q r0] eqn:Hs0; [exact I|]. simpl in Hws.
    destruct (q =? QUOTE)%N; [|exact I].
    destruct (parse_chars r0) as [[key r1]|] eqn:Hkey; [|exact I].
    apply (parse_chars_shorter (length r0)) in Hkey; [|lia].
    pose proof (skip_ws_length r1) as Hws1.
    destruct (skip_ws r1) as [|colon r2] eqn:Hr1; [exact I|]. simpl in Hws1.
    destruct (colon =? 58)%N; [|exact I].
    pose proof (skip_ws_length r2) as Hws2.
    pose proof (IHv (skip_ws r2) ltac:(lia)) as Hv.
    destruct (parse_value fuel (skip_ws r2)) as [v r3| |]; simpl in Hv; [|exact I|done].
    pose proof (skip_ws_length r3) as Hws3.
    destruct (skip_ws r3) as [|c r4] eqn:Hr3; [exact I|]. simpl in Hws3.
    destruct (c =? 44)%N.
    + pose proof (IHm r4 ltac:(lia)) as Hm.
      destruct (parse_members fuel r4); simpl in *; lia.
    + destruct (c =? 125)%N; simpl; lia.
Qed.

(** [JSON.parse] never runs out of fuel: [None] is a syntax error. *)
Lemma parse_fuel_enough (text : jsstring) :
  parse_value (fuel_for text) (skip_ws text) ≠ OutOfFuel.
Proof.
  pose proof (skip_ws_length text) as Hws.
  destruct (parse_fuel (fuel_for text)) as (Hv & _).
  specialize (Hv (skip_ws text)). unfold fuel_for in *.
  intros Hout. rewrite Hout in Hv. apply Hv. lia.
Qed.

End ParserFuel.

(** ** Normalisation of the reply *)

Section Normalisation.
Import JSString JSON AIService.
Variable P : Platform.


Lemma dropWhile_app_stop {A} (p : A -> bool) (l : list A) (x : A) (r : list A) :
  (forall y, y ∈ l -> p y = true) -> p x = false ->
  dropWhile p (l ++ x :: r) = x :: r.
Proof.
  induction l as [|y l IH]; intros Hall Hx; simpl.
  - by rewrite Hx.
  - rewrite (Hall y) by left. apply IH; [|done].
    intros z Hz. apply Hall. by right.
Qed.

Lemma not_code (c : N) (l : jsstring) :
  c ∉ l -> forall x, x ∈ l -> negb (x =? c)%N = true.
Proof.
  intros Hnot x Hx. apply negb_true_iff, N.eqb_neq. intros ->. by apply Hnot.
Qed.

(** The match runs from the first opening brace to the last closing
    brace. *)
Lemma matchBraces_found (before inner after : jsstring) :
  123%N ∉ before -> 125%N ∉ after ->
  matchBraces (before ++ [123%N] ++ inner ++ [125%N] ++ after)
  = Some ([123%N] ++ inner ++ [125%N]).
Proof.
  intros Hbefore Hafter. unfold matchBraces. cbn [app].
  rewrite (dropWhile_app_stop _ before 123%N) by (by apply not_code || done).
  rewrite reverse_app, reverse_cons, <- app_assoc. cbn [app].
  rewrite (dropWhile_app_stop _ (reverse after) 125%N).
  - by rewrite reverse_involutive.
  - intros y Hy. apply (not_code 125%N after); [done|].
    by apply elem_of_reverse.
  - done.
Qed.




Lemma parseAIResponse_null (response : jsstring) :
  JSON.parse (jsonString response) = Some Null ->
  parseAIResponse P response
  = inl (PlainError ("Failed to parse AI response: " +:+ nullPropertyMessage P)).
Proof.
  intros Hparse. unfold parseAIResponse, parseAIResponse_try.
  cbv zeta. fold (jsonString response). by rewrite Hparse.
Qed.

Lemma parseAIResponse_not_object (response : jsstring) (v : Value) :
  JSON.parse (jsonString response) = Some v ->
  match v with
  | Bool _ | Num _ | Str _ | Arr _ => True
  | Undefined | Null | Obj _ => False
  end ->
  parseAIResponse P response = inr defaultResult.
Proof.
  intros Hparse Hv. unfold parseAIResponse, parseAIResponse_try.
  cbv zeta. fold (jsonString response). rewrite Hparse.
  by destruct v.
Qed.



(** An absent or falsy [overallMatch] gives 0. *)
Lemma overallMatch_default (v : Value) :
  truthy v = false ->
  ToNumber P (or_else v (Num (Finite 0))) = inr (Finite 0).
Proof. unfold or_else. by intros ->. Qed.

End Normalisation.

(** C2, the failing inputs.  For the replies [{"overallMatch": {}}] and
    [{"overallMatch": true}], whose [overallMatch] is not a number, the
    normalised [overallMatch] is NaN in the first case and 1 in the
    second, on every platform: it is neither the default 0 nor, in the
    first case, a number between 0 and 100. *)
Theorem parseAIResponse_non_numeric_overallMatch (P : Platform) :
  AIService.parseAIResponse P objectMatchReply
  = inr {| AIService.overallMatch := JSON.NaN;
           AIService.strengths := [];
           AIService.weaknesses := [];
           AIService.recommendations := [];
           AIService.keyAlignments := [];
           AIService.missingSkills := [];
           AIService.summary := JSON.Str (js "Analysis completed") |}
  /\ AIService.parseAIResponse P booleanMatchReply
     = inr {| AIService.overallMatch := JSON.Finite 1;
              AIService.strengths := [];
              AIService.weaknesses := [];
              AIService.recommendations := [];
              AIService.keyAlignments := [];
              AIService.missingSkills := [];
              AIService.summary := JSON.Str (js "Analysis completed") |}.
Proof. split; reflexivity. Qed.

(** The reply of the specification: 150 is clamped to 100 and a string
    in place of a list becomes the empty list. *)
Lemma parseAIResponse_out_of_range_reply (P : Platform) :
  exists result : AIService.AnalysisResult,
    AIService.parseAIResponse P outOfRangeReply = inr result
    /\ AIService.overallMatch result = JSON.Finite 100
    /\ AIService.strengths result = [].
Proof. eexists. split; [reflexivity|]. split; reflexivity. Qed.

Lemma parseAIResponse_coercion_error
  (P : Platform) (response : jsstring) (props : list (jsstring * JSON.Value))
  (message : string) :
  JSON.parse (jsonString response) = Some (JSON.Obj props) ->
  AIService.ToNumber P
    (JSON.or_else (field props "overallMatch") (JSON.Num (JSON.Finite 0)))
  = inl message ->
  AIService.parseAIResponse P response
  = inl (PlainError ("Failed to parse AI response: " +:+ message)).
Proof.
  intros Hparse Hnum.
  unfold AIService.parseAIResponse, AIService.parseAIResponse_try.
  cbv zeta. fold (jsonString response). rewrite Hparse.
  unfold AIService.property, JSON.get. fold (field props "overallMatch").
  unfold mbind at 1, sum_bind at 1. rewrite Hnum.
  reflexivity.
Qed.



(** What is recovered need not be an object: the reply [42] is valid
    JSON, reading a property of a number gives [undefined], and every
    field of the result takes its default. *)
Lemma non_object_reply_gives_defaults :
  AIService.matchBraces (js "42") = None
  /\ JSON.parse (js "42") = Some (JSON.Num (JSON.Finite 42))
  /\ AIService.parseAIResponse samplePlatform (js "42") = inr defaultResult.
Proof. split; [|split]; reflexivity. Qed.

(** The example of the test suite for [cleanText]. *)
Example cleanText_example :
  PDFService.cleanText
    ([32; 32]%N ++ js "Multiple" ++ [10; 10; 13; 10; 32; 32]%N
     ++ js "spaces   and" ++ [13; 10]%N ++ js "line breaks  ")
  = js "Multiple spaces and line breaks".
Proof. reflexivity. Qed.

(* ===================================================================== *)
(** * Part III.  Further properties of the code                           *)
(* ===================================================================== *)

(** ** More on the rate limiter *)

Section RateLimiterMore.
Variable clock : nat -> Z.

Lemma canMakeRequest_returns (identifier : string) (w : World) :
  exists (r : RateLimiter.CheckResult) (rs : list Z),
    RateLimiter.canMakeRequest clock identifier w
    = (Returned r, recorded w identifier rs 3)
    /\ ((length (window_of w identifier) <= 300)%nat -> (length rs <= 300)%nat).
Proof.
  rewrite canMakeRequest_unfold. cbv zeta.
  set (pruned := within (clock (S (ticks w))) 3600000 (window_of w identifier)).
  assert (Hlen : (length pruned <= length (window_of w identifier))%nat)
    by apply length_filter.
  repeat case_bool_decide; eexists; eexists; (split; [reflexivity|]);
    rewrite ?length_app; simpl; lia.
Qed.

Lemma recorded_other (w : World) (i j : string) (rs : list Z) (n : nat) :
  i ≠ j -> windows (recorded w i rs n) !! j = windows w !! j.
Proof. intros Hne. unfold recorded. simpl. by rewrite lookup_insert_ne. Qed.

Lemma repeat_checks_other (a b : string) (n : nat) :
  a ≠ b ->
  forall w : World,
    windows (snd (repeatM n (RateLimiter.canMakeRequest clock a) w)) !! b
    = windows w !! b.
Proof.
  intros Hne. induction n as [|n IH]; intros w; [done|].
  simpl. unfold bind at 1.
  destruct (canMakeRequest_returns a w) as (r & rs & Hcall & _).
  rewrite Hcall. unfold bind at 1.
  specialize (IH (recorded w a rs 3)).
  destruct (repeatM n (RateLimiter.canMakeRequest clock a) (recorded w a rs 3))
    as [[l|e] w2]; unfold ret; cbn [snd] in *; rewrite IH;
    by apply recorded_other.
Qed.

Lemma canMakeRequest_depends (identifier : string) (w1 w2 : World) :
  windows w1 !! identifier = windows w2 !! identifier ->
  ticks w1 = ticks w2 ->
  fst (RateLimiter.canMakeRequest clock identifier w1)
  = fst (RateLimiter.canMakeRequest clock identifier w2).
Proof.
  intros Hwin Hticks. rewrite !canMakeRequest_unfold. cbv zeta.
  unfold window_of. rewrite Hwin, Hticks.
  by repeat case_bool_decide.
Qed.

Lemma getRemainingRequests_depends (identifier : string) (w1 w2 : World) :
  windows w1 !! identifier = windows w2 !! identifier ->
  ticks w1 = ticks w2 ->
  fst (RateLimiter.getRemainingRequests clock identifier w1)
  = fst (RateLimiter.getRemainingRequests clock identifier w2).
Proof.
  intros Hwin Hticks. rewrite !getRemainingRequests_unfold.
  rewrite Hwin, Hticks. by destruct (windows w2 !! identifier).
Qed.

End RateLimiterMore.

(** X1.  Identifiers have independent windows: after any number of
    checks for one identifier, a check and a report for another
    identifier give, at the same readings of the clock, what they would
    have given without those checks. *)
Theorem identifiers_are_independent
  (clock : nat -> Z) (a b : string) (n k : nat) (w : World) :
  a ≠ b ->
  let w' := snd (repeatM n (RateLimiter.canMakeRequest clock a) w) in
  fst (RateLimiter.canMakeRequest clock b (at_tick k w'))
  = fst (RateLimiter.canMakeRequest clock b (at_tick k w))
  /\ fst (RateLimiter.getRemainingRequests clock b (at_tick k w'))
     = fst (RateLimiter.getRemainingRequests clock b (at_tick k w)).
Proof.
  intros Hne w'.
  assert (Hwin : windows (at_tick k w') !! b = windows (at_tick k w) !! b).
  { unfold at_tick, w'. simpl. by apply repeat_checks_other. }
  split.
  - by apply canMakeRequest_depends.
  - by apply getRemainingRequests_depends.
Qed.

Lemma identifiers_are_independent_witness :
  fst (RateLimiter.canMakeRequest sampleClock "b"
         (at_tick 100
            (snd (repeatM 25 (RateLimiter.canMakeRequest sampleClock "a")
                    emptyWorld))))
  = fst (RateLimiter.canMakeRequest sampleClock "b" (at_tick 100 emptyWorld)).
Proof.
  refine (proj1 (identifiers_are_independent sampleClock "a" "b" 25 100
                   emptyWorld _)).
  discriminate.
Defined.

(** X2.  The window of an identifier never holds more than 300
    timestamps: whatever the clock shows, a state in which every window
    has at most 300 entries is taken to such a state by any sequence of
    checks, for any identifiers. *)
Theorem windows_stay_bounded
  (clock : nat -> Z) (identifiers : list string) (w : World) :
  bounded w ->
  bounded (snd (forEach (RateLimiter.canMakeRequest clock) identifiers w)).
Proof.
  revert w. induction identifiers as [|identifier rest IH]; intros w Hb; [done|].
  simpl. unfold bind at 1.
  destruct (canMakeRequest_returns clock identifier w) as (r & rs & Hcall & Hrs).
  rewrite Hcall. unfold bind at 1.
  assert (Hb1 : bounded (recorded w identifier rs 3)).
  { intros j. destruct (decide (identifier = j)) as [<-|Hne].
    - rewrite window_of_recorded. apply Hrs, Hb.
    - rewrite window_of_recorded_ne by done. apply Hb. }
  specialize (IH _ Hb1).
  by destruct (forEach (RateLimiter.canMakeRequest clock) rest
                 (recorded w identifier rs 3)) as [[l|e] w2].
Qed.

Lemma windows_stay_bounded_witness :
  bounded (snd (forEach (RateLimiter.canMakeRequest sampleClock)
                  ["a"; "b"; "a"] emptyWorld)).
Proof.
  apply (windows_stay_bounded sampleClock ["a"; "b"; "a"] emptyWorld).
  intros identifier. unfold window_of. simpl. rewrite lookup_empty. simpl. lia.
Defined.

Section RateLimiterSequences.
Variable clock : nat -> Z.

(** [n] admitted checks in a row, when the window and all the readings
    lie within one minute and the quota is not used up. *)
Lemma repeat_admitted (k0 k1 : nat) (identifier : string) (n : nat) :
  within_one_minute clock k0 k1 ->
  forall w : World,
    (k0 <= ticks w)%nat -> (ticks w + 3 * n <= k1)%nat ->
    read_between clock k0 k1 (window_of w identifier) ->
    (length (window_of w identifier) + n <= 20)%nat ->
    exists w' : World,
      repeatM n (RateLimiter.canMakeRequest clock identifier) w
      = (Returned (replicate n allowedResult), w')
      /\ ticks w' = (ticks w + 3 * n)%nat
      /\ length (window_of w' identifier)
         = (length (window_of w identifier) + n)%nat
      /\ read_between clock k0 k1 (window_of w' identifier)
      /\ (n ≠ O -> is_Some (windows w' !! identifier)).
Proof.
  intros Hmin. induction n as [|n IH]; intros w Hk0 Hk1 Hread Hlen.
  - exists w. repeat split; [lia..|done|done].
  - simpl repeatM. unfold bind at 1.
    rewrite (canMakeRequest_within_minute clock k0 k1) by (done || lia).
    rewrite bool_decide_eq_false_2 by lia.
    set (w1 := recorded w identifier (window_of w identifier ++ [clock (ticks w)]) 3).
    destruct (IH w1) as (w' & Hrun & Hticks & Hlen' & Hread' & Hsome).
    + unfold w1, recorded. simpl. lia.
    + unfold w1, recorded. simpl. lia.
    + unfold w1. rewrite window_of_recorded. intros ts Hts.
      apply elem_of_app in Hts as [Hts|Hts]; [by apply Hread|].
      apply list_elem_of_singleton in Hts as ->.
      exists (ticks w). split; [lia|done].
    + unfold w1. rewrite window_of_recorded, length_app. simpl. lia.
    + exists w'. unfold bind at 1. rewrite Hrun. unfold ret.
      split; [reflexivity|].
      split; [rewrite Hticks; unfold w1, recorded; simpl; lia|].
      split; [rewrite Hlen'; unfold w1; rewrite window_of_recorded, length_app;
              simpl; lia|].
      split; [done|]. intros _.
      destruct n as [|n'].
      * injection Hrun as <-. unfold w1, recorded. simpl.
        rewrite lookup_insert_eq. by eexists.
      * by apply Hsome.
Qed.

End RateLimiterSequences.

(** X3.  After [n] checks made within one minute on an identifier whose
    window was empty, with [n] at most 20, all [n] checks are allowed and
    the report that follows within the same minute is 20 - n and
    300 - n. *)
Theorem remaining_counts_down
  (clock : nat -> Z) (identifier : string) (n : nat) (w : World) :
  window_of w identifier = [] ->
  (n <= 20)%nat ->
  within_one_minute clock (ticks w) (ticks w + 3 * n + 3) ->
  exists w' : World,
    repeatM n (RateLimiter.canMakeRequest clock identifier) w
    = (Returned (replicate n allowedResult), w')
    /\ fst (RateLimiter.getRemainingRequests clock identifier w')
       = Returned {| RateLimiter.minute := 20 - Z.of_nat n;
                     RateLimiter.hour := 300 - Z.of_nat n |}.
Proof.
  intros Hempty Hn Hmin.
  destruct (repeat_admitted clock (ticks w) (ticks w + 3 * n + 3) identifier n
              Hmin w) as (w' & Hrun & Hticks & Hlen & Hread & Hsome).
  - lia.
  - lia.
  - rewrite Hempty. intros ts Hts. by apply elem_of_nil in Hts.
  - rewrite Hempty. simpl. lia.
  - exists w'. split; [done|].
    rewrite Hempty in Hlen. simpl in Hlen.
    rewrite getRemainingRequests_unfold.
    unfold window_of in Hlen, Hread.
    destruct (windows w' !! identifier) as [win|] eqn:Hwin; simpl in *.
    + assert (Hm : within (clock (S (ticks w'))) 60000 (requests win)
                   = requests win).
      { apply filter_keeps_all. intros ts Hts.
        destruct (Hread ts Hts) as (i & Hi & ->).
        specialize (Hmin i (S (ticks w'))). lia. }
      assert (Hh : within (clock (S (S (ticks w')))) 3600000 (requests win)
                   = requests win).
      { apply filter_keeps_all. intros ts Hts.
        destruct (Hread ts Hts) as (i & Hi & ->).
        specialize (Hmin i (S (S (ticks w')))). lia. }
      rewrite Hm, Hh, Hlen. f_equal. f_equal; lia.
    + destruct n as [|n']; [reflexivity|].
      destruct Hsome as [x Hx]; [done|discriminate].
Qed.

Lemma remaining_counts_down_witness :
  exists w' : World,
    repeatM 7 (RateLimiter.canMakeRequest sampleClock "x") emptyWorld
    = (Returned (replicate 7 allowedResult), w')
    /\ fst (RateLimiter.getRemainingRequests sampleClock "x" w')
       = Returned {| RateLimiter.minute := 13; RateLimiter.hour := 293 |}.
Proof.
  apply (remaining_counts_down sampleClock "x" 7 emptyWorld).
  - reflexivity.
  - lia.
  - intros i j Hi Hj. unfold sampleClock. simpl in Hi, Hj. lia.
Defined.

(** X4.  A check and a report agree: when the two readings of the clock
    that both use show the same instant, a check made in a state is
    allowed exactly when the report made in that state shows a positive
    count for the minute and for the hour. *)
Theorem check_agrees_with_report
  (clock : nat -> Z) (identifier : string) (w : World) :
  clock (S (ticks w)) = clock (S (S (ticks w))) ->
  exists (r : RateLimiter.CheckResult) (remaining : RateLimiter.Remaining),
    fst (RateLimiter.canMakeRequest clock identifier w) = Returned r
    /\ fst (RateLimiter.getRemainingRequests clock identifier w)
       = Returned remaining
    /\ (RateLimiter.allowed r = true
        <-> 0 < RateLimiter.minute remaining /\ 0 < RateLimiter.hour remaining).
Proof.
  intros Hsame.
  rewrite canMakeRequest_unfold, getRemainingRequests_unfold. cbv zeta.
  rewrite <- Hsame.
  set (t := clock (S (ticks w))).
  rewrite (within_within t t 60000) by lia.
  unfold window_of.
  destruct (windows w !! identifier) as [win|]; simpl.
  - repeat case_bool_decide; eexists; eexists;
      (split; [reflexivity|]); (split; [reflexivity|]); simpl;
      (split; [intros ?|intros [? ?]]); try done; try lia.
  - eexists; eexists. split; [reflexivity|]. split; [reflexivity|].
    simpl. split; [lia|done].
Qed.

Lemma check_agrees_with_report_witness :
  exists (r : RateLimiter.CheckResult) (remaining : RateLimiter.Remaining),
    fst (RateLimiter.canMakeRequest (frozenClock 1700000000000) "x" fullWorld)
    = Returned r
    /\ fst (RateLimiter.getRemainingRequests (frozenClock 1700000000000) "x"
              fullWorld)
       = Returned remaining
    /\ (RateLimiter.allowed r = true
        <-> 0 < RateLimiter.minute remaining /\ 0 < RateLimiter.hour remaining).
Proof.
  apply (check_agrees_with_report (frozenClock 1700000000000) "x" fullWorld).
  reflexivity.
Defined.

(** X5.  The quota comes back: whatever the window of an identifier
    holds, once every recorded request is at least an hour old the next
    check is allowed and leaves only its own instant in the window. *)
Theorem quota_recovers_after_an_hour
  (clock : nat -> Z) (identifier : string) (w : World) :
  (forall ts : Z, ts ∈ window_of w identifier ->
     3600000 <= clock (S (ticks w)) - ts) ->
  RateLimiter.canMakeRequest clock identifier w
  = (Returned {| RateLimiter.allowed := true; RateLimiter.error := None |},
     recorded w identifier [clock (ticks w)] 3).
Proof.
  intros Hold. rewrite canMakeRequest_unfold. cbv zeta.
  assert (Hnone : within (clock (S (ticks w))) 3600000 (window_of w identifier)
                  = []).
  { unfold within. induction (window_of w identifier) as [|ts l IH]; [done|].
    rewrite filter_cons_False.
    - apply IH. intros x Hx. apply Hold. by right.
    - assert (Hin : ts ∈ ts :: l) by left. specialize (Hold ts Hin). lia. }
  rewrite Hnone. reflexivity.
Qed.

Lemma quota_recovers_after_an_hour_witness :
  RateLimiter.canMakeRequest (frozenClock 1703600000000) "x" fullWorld
  = (Returned {| RateLimiter.allowed := true; RateLimiter.error := None |},
     recorded fullWorld "x" [1703600000000] 3).
Proof.
  apply (quota_recovers_after_an_hour (frozenClock 1703600000000) "x" fullWorld).
  intros ts Hts. unfold fullWorld, window_of in Hts. simpl in Hts.
  rewrite lookup_singleton_eq in Hts. simpl in Hts.
  repeat (apply elem_of_cons in Hts as [->|Hts]; [unfold frozenClock; lia|]).
  by apply elem_of_nil in Hts.
Defined.

(** ** More on text cleaning *)

Section CleanTextMore.
Import JSString PDFService.
Local Open Scope N_scope.

Lemma inkOf_cons (c : N) (s : jsstring) :
  inkOf (c :: s) = if isWhiteSpace c then inkOf s else c :: inkOf s.
Proof.
  unfold inkOf. destruct (isWhiteSpace c) eqn:Hc.
  - rewrite filter_cons_False; [done|]. by rewrite Hc.
  - by rewrite filter_cons_True.
Qed.

Lemma inkOf_replaceLineBreaks (n : nat) :
  forall s : jsstring,
    (length s <= n)%nat -> inkOf (replaceLineBreaks s) = inkOf s.
Proof.
  induction n as [|n IH]; intros s Hn.
  - destruct s; [done|simpl in Hn; lia].
  - destruct s as [|c r]; [done|]. simpl in Hn. simpl replaceLineBreaks.
    destruct (c =? CR) eqn:Hcr.
    + apply N.eqb_eq in Hcr as ->. rewrite !inkOf_cons. simpl.
      destruct r as [|d r']; [done|].
      destruct (d =? LF) eqn:Hlf.
      * apply N.eqb_eq in Hlf as ->. rewrite inkOf_cons. simpl.
        apply IH. simpl in Hn. lia.
      * apply IH. lia.
    + destruct (c =? LF) eqn:Hlf.
      * apply N.eqb_eq in Hlf as ->. rewrite !inkOf_cons. simpl.
        apply IH. lia.
      * rewrite !inkOf_cons. rewrite IH by lia. done.
Qed.

Lemma inkOf_collapseFrom (s : jsstring) :
  forall b : bool, inkOf (collapseFrom b s) = inkOf s.
Proof.
  induction s as [|c r IH]; intros b; [done|]. simpl.
  destruct (isWhiteSpace c) eqn:Hc.
  - destruct b; rewrite !inkOf_cons, ?Hc, IH; done.
  - by rewrite !inkOf_cons, Hc, IH.
Qed.

Lemma inkOf_dropWhile (s : jsstring) :
  inkOf (dropWhile isWhiteSpace s) = inkOf s.
Proof.
  induction s as [|c r IH]; [done|]. simpl.
  destruct (isWhiteSpace c) eqn:Hc; [|done].
  by rewrite inkOf_cons, Hc.
Qed.

Lemma inkOf_trimEnd (s : jsstring) : inkOf (trimEnd s) = inkOf s.
Proof.
  induction s as [|c r IH]; [done|]. simpl.
  rewrite inkOf_cons, <- IH.
  destruct (trimEnd r) as [|d k].
  - by destruct (isWhiteSpace c) eqn:Hc; rewrite ?inkOf_cons, ?Hc.
  - by rewrite inkOf_cons.
Qed.

Lemma inkOf_cleanText (s : jsstring) : inkOf (cleanText s) = inkOf s.
Proof.
  unfold cleanText, trim, trimStart, collapseWhiteSpace.
  rewrite inkOf_trimEnd, inkOf_dropWhile, inkOf_collapseFrom.
  by apply (inkOf_replaceLineBreaks (length s)).
Qed.

Lemma inkOf_nil_iff (s : jsstring) :
  inkOf s = [] <-> forall c, c ∈ s -> isWhiteSpace c = true.
Proof.
  induction s as [|c r IH]; [split; [intros _ c Hc; by apply elem_of_nil in Hc|done]|].
  rewrite inkOf_cons. destruct (isWhiteSpace c) eqn:Hc.
  - rewrite IH. split.
    + intros Hall x Hx. apply elem_of_cons in Hx as [->|Hx]; [done|by apply Hall].
    + intros Hall x Hx. apply Hall. by right.
  - split; [done|]. intros Hall. specialize (Hall c). rewrite Hc in Hall.
    assert (c ∈ c :: r) by left. by specialize (Hall ltac:(done)).
Qed.

Lemma cleanText_nil_iff (s : jsstring) :
  cleanText s = [] <-> forall c, c ∈ s -> isWhiteSpace c = true.
Proof.
  rewrite <- inkOf_nil_iff, <- (inkOf_cleanText s).
  split; [by intros ->|].
  intros Hink. destruct (cleanText_shape s) as (_ & Hstart & _).
  destruct (cleanText s) as [|c r]; [done|]. simpl in Hstart.
  rewrite inkOf_cons, Hstart in Hink. done.
Qed.

Lemma trim_cleanText (s : jsstring) : trim (cleanText s) = cleanText s.
Proof.
  destruct (cleanText_shape s) as (_ & Hstart & Hend).
  unfold trim. by rewrite (trimStart_fixed _ Hstart).
Qed.

Lemma singleSpaced_middle (c : N) (post : jsstring) :
  isWhiteSpace c = true ->
  forall (pre : jsstring) (b : bool),
    singleSpaced b (pre ++ c :: post) ->
    c = SPACE
    /\ (pre = [] /\ b = false
        \/ exists (pre' : jsstring) (a : N),
             pre = pre' ++ [a] /\ isWhiteSpace a = false)
    /\ (post = []
        \/ exists (d : N) (post' : jsstring),
             post = d :: post' /\ isWhiteSpace d = false).
Proof.
  intros Hc. induction pre as [|a pre IH]; intros b Hss.
  - simpl in Hss. rewrite Hc in Hss. destruct Hss as (-> & -> & Hpost).
    split; [done|]. split; [by left|].
    destruct post as [|d post']; [by left|]. right. exists d, post'.
    split; [done|]. simpl in Hpost.
    destruct (isWhiteSpace d); [|done]. by destruct Hpost as (_ & ? & _).
  - simpl in Hss. destruct (isWhiteSpace a) eqn:Ha.
    + destruct Hss as (_ & _ & Hss).
      destruct (IH true Hss) as (Hsp & [[_ ?]|(pre' & x & -> & Hx)] & Hpost);
        [done|].
      split; [done|]. split; [|done]. right. by exists (a :: pre'), x.
    + destruct (IH false Hss) as (Hsp & [[-> _]|(pre' & x & -> & Hx)] & Hpost).
      * split; [done|]. split; [|done]. right. by exists [], a.
      * split; [done|]. split; [|done]. right. by exists (a :: pre'), x.
Qed.

Lemma trimEnd_fixed_last (pre : jsstring) (c : N) :
  trimEnd (pre ++ [c]) = pre ++ [c] -> isWhiteSpace c = false.
Proof.
  induction pre as [|a pre IH]; simpl.
  - by destruct (isWhiteSpace c).
  - destruct (trimEnd (pre ++ [c])) as [|d k] eqn:Hk.
    + destruct (isWhiteSpace a); intros Heq; [done|].
      injection Heq as Heq. by destruct pre.
    + intros [= Heq]. apply IH. by rewrite <- Heq.
Qed.

End CleanTextMore.

(** X6.  Cleaning a text neither drops, adds nor reorders a character
    that is not white space: the characters of the cleaned text other
    than white space are those of the text, in the same order. *)
Theorem cleanText_keeps_ink (s : jsstring) :
  inkOf (PDFService.cleanText s) = inkOf s.
Proof. apply inkOf_cleanText. Qed.

(** X7.  In a cleaned text every white-space character is a space that
    stands between two characters that are not white space: there is no
    line break, no tab, no run of spaces, and no space at either end. *)
Theorem cleanText_single_spaces (s pre post : jsstring) (c : N) :
  PDFService.cleanText s = pre ++ c :: post ->
  JSString.isWhiteSpace c = true ->
  c = JSString.SPACE
  /\ (exists (pre' : jsstring) (a : N),
        pre = pre' ++ [a] /\ JSString.isWhiteSpace a = false)
  /\ (exists (d : N) (post' : jsstring),
        post = d :: post' /\ JSString.isWhiteSpace d = false).
Proof.
  intros Heq Hc.
  destruct (cleanText_shape s) as (Hss & Hstart & Hend).
  rewrite Heq in Hss, Hstart, Hend.
  destruct (singleSpaced_middle c post Hc pre false Hss)
    as (Hsp & Hpre & Hpost).
  split; [done|]. split.
  - destruct Hpre as [[-> _]|Hpre]; [|done].
    simpl in Hstart. congruence.
  - destruct Hpost as [->|Hpost]; [|done].
    apply trimEnd_fixed_last in Hend. congruence.
Qed.

Lemma cleanText_single_spaces_witness :
  32%N = JSString.SPACE
  /\ (exists (pre' : jsstring) (a : N),
        js "hello" = pre' ++ [a] /\ JSString.isWhiteSpace a = false)
  /\ (exists (d : N) (post' : jsstring),
        js "world" = d :: post' /\ JSString.isWhiteSpace d = false).
Proof.
  apply (cleanText_single_spaces
           ([9; 32]%N ++ js "hello" ++ [13; 10; 32]%N ++ js "world" ++ [10]%N)).
  - reflexivity.
  - reflexivity.
Defined.

(** X8.  Validation at the bounds: a buffer of fewer than four bytes,
    the empty one included, is not a PDF, and a buffer of exactly 10 MiB
    that starts with %PDF is valid, the size limit being inclusive. *)
Theorem validatePDF_bounds (buffer : list byte) :
  ((length buffer < 4)%nat ->
   PDFService.validatePDF buffer
   = {| PDFService.isValid := false;
        PDFService.error := Some "Invalid PDF format" |})
  /\ (take 4 buffer = PDFService.pdfMagic ->
      Z.of_nat (length buffer) = 10 * 1024 * 1024 ->
      PDFService.validatePDF buffer
      = {| PDFService.isValid := true; PDFService.error := None |}).
Proof.
  unfold PDFService.validatePDF. split.
  - intros Hshort. rewrite bool_decide_eq_true_2; [done|].
    intros Heq. apply (f_equal length) in Heq.
    rewrite length_take in Heq. unfold PDFService.pdfMagic in Heq.
    cbn [length] in Heq. lia.
  - intros Hhead Hlen.
    rewrite bool_decide_eq_false_2 by (intros Hne; by apply Hne).
    rewrite bool_decide_eq_false_2 by lia. reflexivity.
Qed.

Lemma validatePDF_bounds_witness :
  PDFService.validatePDF []
  = {| PDFService.isValid := false;
       PDFService.error := Some "Invalid PDF format" |}
  /\ PDFService.validatePDF largestPdf
     = {| PDFService.isValid := true; PDFService.error := None |}.
Proof.
  split.
  - apply (proj1 (validatePDF_bounds [])). simpl. lia.
  - apply (proj2 (validatePDF_bounds largestPdf)).
    + reflexivity.
    + unfold largestPdf. cbn [length]. rewrite length_replicate. lia.
Defined.

(** ** More on the analysis procedure *)

Section AnalysisMore.
Import JSString PDFService AIService Router.

Lemma canMakeRequest_calls (clock : nat -> Z) (identifier : string) (w : World) :
  calls (snd (RateLimiter.canMakeRequest clock identifier w)) = calls w.
Proof.
  rewrite canMakeRequest_unfold. cbv zeta. by repeat case_bool_decide.
Qed.

(** What the router makes of a value thrown by the gateway step. *)
Lemma analyze_gateway_throws
  (P : Platform) (jd cv : list byte) (djd dcv : PdfData) (cfg : Config)
  (e : Exn) (w w1 : World) :
  isValid (validatePDF jd) = true -> isValid (validatePDF cv) = true ->
  pdf P jd = inr djd -> pdf P cv = inr dcv ->
  trim (cleanText (data_text djd)) ≠ [] ->
  trim (cleanText (data_text dcv)) ≠ [] ->
  validateAIConfiguration (env P) = inr cfg ->
  analyzeCandidate P (constructor (env P) (token cfg))
    (cleanText (data_text dcv)) (cleanText (data_text djd)) (extracted w jd cv)
  = (Thrown e, w1) ->
  analyzeCandidateMatch P jd cv w
  = (Thrown match e with
            | TRPCError _ _ => e
            | _ => TRPCError INTERNAL_SERVER_ERROR (message_or "Analysis failed" e)
            end, w1).
Proof.
  intros Hjd Hcv Hpjd Hpcv Htjd Htcv Hcfg Hgate.
  unfold analyzeCandidateMatch, try_catch.
  rewrite (analyze_try_documents_ok P jd cv djd dcv w) by done.
  rewrite Hcfg. unfold bind at 1. unfold AIService.lift at 1. unfold ret at 1.
  unfold bind at 1. rewrite Hgate. by destruct e.
Qed.

(** The gateway step after an admission, by what the endpoint does: in
    every case the request resumes in the world that the other requests
    leave and changes it no more. *)
Lemma analyzeCandidate_gateway
  (P : Platform) (svc : AIService.t) (cvText jdText : jsstring) (w : World) :
  let request := request_of svc (buildAnalysisPrompt cvText jdText) in
  let w1 := meanwhile P (suspended P w request) in
  admits (clock P) w ->
  analyzeCandidate P svc cvText jdText w
  = match axios_post P request with
    | inr (Some (c :: reply)) =>
        match parseAIResponse P (c :: reply) with
        | inr result => (Returned result, w1)
        | inl e => (Thrown e, w1)
        end
    | inr (Some []) | inr None =>
        (Thrown (PlainError "Invalid response from AI service"), w1)
    | inl (AxiosError status dataMessage message) =>
        (Thrown (PlainError
                   (if bool_decide (status = Some 429)
                    then "Rate limit exceeded on AI service"
                    else "AI service error: " +:+ or_string dataMessage message)),
         w1)
    | inl e => (Thrown e, w1)
    end.
Proof.
  intros request w1 [Hminute Hhour].
  unfold prunedWindow in Hminute, Hhour.
  unfold analyzeCandidate. unfold bind at 1.
  rewrite canMakeRequest_unfold. cbv zeta.
  rewrite bool_decide_eq_false_2 by lia.
  rewrite bool_decide_eq_false_2 by lia.
  change (negb (RateLimiter.allowed allowedResult)) with false. cbv iota.
  unfold try_catch, bind, log_call, suspend, recorded.
  cbn [windows ticks calls]. fold request.
  change (meanwhile P _) with w1.
  destruct (axios_post P request) as [e|[[|c reply]|]]; simpl.
  - destruct e; try reflexivity. by case_bool_decide.
  - reflexivity.
  - unfold parseAIResponse.
    by destruct (parseAIResponse_try P (c :: reply)).
  - reflexivity.
Qed.

End AnalysisMore.

(** X9.  A rejection by the local limiter ends the analysis with an
    INTERNAL_SERVER_ERROR that carries the reason of the limiter word
    for word; the two extractions have been made, and no gateway call is
    started. *)
Theorem limiter_rejection_is_internal
  (P : Platform) (jd cv : list byte) (djd dcv : PdfData) (cfg : Router.Config)
  (r : RateLimiter.CheckResult) (w w' : World) :
  documentsReadable P jd cv djd dcv ->
  Router.validateAIConfiguration (env P) = inr cfg ->
  RateLimiter.canMakeRequest (clock P) RateLimiter.default_identifier
    (extracted w jd cv) = (Returned r, w') ->
  RateLimiter.allowed r = false ->
  exists reason : string,
    RateLimiter.error r = Some reason
    /\ Router.analyzeCandidateMatch P jd cv w
       = (Thrown (TRPCError INTERNAL_SERVER_ERROR reason), w')
    /\ calls w' = calls (extracted w jd cv).
Proof.
  intros (Hjd & Hcv & Hpjd & Hpcv & Htjd & Htcv) Hcfg Hcall Hrej.
  assert (Hreason : exists reason, RateLimiter.error r = Some reason).
  { rewrite canMakeRequest_unfold in Hcall. cbv zeta in Hcall.
    repeat case_bool_decide; injection Hcall as <- <-;
      first [discriminate Hrej | by eexists]. }
  destruct Hreason as [reason Hreason]. exists reason.
  split; [done|]. split.
  - apply (analyze_gateway_throws P jd cv djd dcv cfg (PlainError reason) w w');
      try done.
    unfold AIService.analyzeCandidate. unfold bind at 1.
    rewrite Hcall, Hrej, Hreason. reflexivity.
  - rewrite <- (canMakeRequest_calls (clock P) RateLimiter.default_identifier
                  (extracted w jd cv)).
    by rewrite Hcall.
Qed.

Lemma limiter_rejection_is_internal_witness :
  exists reason : string,
    RateLimiter.error minuteRejection = Some reason
    /\ Router.analyzeCandidateMatch samplePlatform samplePdf shortPdf busyWorld
       = (Thrown (TRPCError INTERNAL_SERVER_ERROR reason),
          snd (RateLimiter.canMakeRequest sampleClock "default"
                 (extracted busyWorld samplePdf shortPdf)))
    /\ calls (snd (RateLimiter.canMakeRequest sampleClock "default"
                     (extracted busyWorld samplePdf shortPdf)))
       = calls (extracted busyWorld samplePdf shortPdf).
Proof.
  refine (limiter_rejection_is_internal samplePlatform samplePdf shortPdf
            {| data_text := js "hello  world"; data_numpages := 9 |}
            {| data_text := js "hello  world"; data_numpages := 5 |}
            {| Router.useWolf_ := false; Router.token := None |}
            minuteRejection busyWorld _ _ _ _ _).
  - repeat split; try reflexivity; vm_compute; discriminate.
  - reflexivity.
  - vm_compute. reflexivity.
  - reflexivity.
Defined.

(** X10.  An admitted request is counted whatever the gateway does.
    For readable documents, a valid configuration and an admitted check,
    the request suspends for the answer of the gateway in a state where
    its instant has been appended to the pruned window and exactly one
    gateway call has been started after the two extractions; when it
    resumes, in the state that the other requests leave, it ends with a
    result or with an error without changing any window or starting any
    call: it only reads the clock, at most four times.  So nothing that
    the gateway answers takes the instant back or repeats the call. *)
Theorem admitted_request_is_counted
  (P : Platform) (jd cv : list byte) (djd dcv : PdfData) (cfg : Router.Config)
  (w : World) :
  documentsReadable P jd cv djd dcv ->
  Router.validateAIConfiguration (env P) = inr cfg ->
  admits (clock P) w ->
  let atSuspension :=
    suspended P (extracted w jd cv) (requestFor P cfg djd dcv) in
  let resumed := meanwhile P atSuspension in
  window_of atSuspension RateLimiter.default_identifier
  = prunedWindow (clock P) w ++ [clock P (ticks w)]
  /\ calls atSuspension
     = calls (extracted w jd cv) ++ [CallPost (requestFor P cfg djd dcv)]
  /\ exists t : nat,
       (ticks resumed <= t <= ticks resumed + 4)%nat
       /\ snd (Router.analyzeCandidateMatch P jd cv w) = at_tick t resumed.
Proof.
  intros (Hjd & Hcv & Hpjd & Hpcv & Htjd & Htcv) Hcfg Hadmits
    atSuspension resumed.
  split.
  { unfold atSuspension, suspended, window_of. cbn [windows].
    by rewrite lookup_insert_eq. }
  split; [reflexivity|].
  assert (Hsame : resumed = at_tick (ticks resumed) resumed).
  { by destruct resumed. }
  unfold Router.analyzeCandidateMatch, try_catch.
  rewrite (analyze_try_documents_ok P jd cv djd dcv w) by done.
  rewrite Hcfg. unfold bind at 1. unfold AIService.lift at 1. unfold ret at 1.
  unfold bind at 1.
  rewrite analyzeCandidate_gateway by done. cbv zeta.
  fold (requestFor P cfg djd dcv). fold atSuspension. fold resumed.
  destruct (axios_post P (requestFor P cfg djd dcv)) as [e|[[|c reply]|]].
  - exists (ticks resumed). split; [lia|].
    destruct e; unfold throw; cbv beta iota; cbn [snd]; exact Hsame.
  - exists (ticks resumed). split; [lia|]. exact Hsame.
  - destruct (AIService.parseAIResponse P (c :: reply)) as [e|result].
    + exists (ticks resumed). split; [lia|].
      destruct e; unfold throw; cbv beta iota; cbn [snd]; exact Hsame.
    + unfold bind at 1. unfold Router.now_iso, bind at 1, RateLimiter.Date_now,
        ret at 1.
      unfold bind at 1. unfold AIService.getRemainingRequests.
      rewrite getRemainingRequests_unfold.
      cbn [windows ticks calls].
      destruct (windows resumed !! RateLimiter.default_identifier).
      * exists (ticks resumed + 4)%nat. split; [lia|].
        unfold ret, at_tick. cbn [snd windows ticks calls].
        f_equal. lia.
      * exists (S (ticks resumed)). split; [lia|]. reflexivity.
  - exists (ticks resumed). split; [lia|]. exact Hsame.
Qed.

Lemma admitted_request_is_counted_witness :
  window_of (suspended throttledPlatform (extracted emptyWorld samplePdf shortPdf)
               (requestFor throttledPlatform
                  {| Router.useWolf_ := false; Router.token := None |}
                  {| data_text := js "hello  world"; data_numpages := 9 |}
                  {| data_text := js "hello  world"; data_numpages := 5 |}))
    "default"
  = [sampleClock 0]
  /\ exists t : nat,
       snd (Router.analyzeCandidateMatch throttledPlatform samplePdf shortPdf
              emptyWorld)
       = at_tick t
           (suspended throttledPlatform (extracted emptyWorld samplePdf shortPdf)
              (requestFor throttledPlatform
                 {| Router.useWolf_ := false; Router.token := None |}
                 {| data_text := js "hello  world"; data_numpages := 9 |}
                 {| data_text := js "hello  world"; data_numpages := 5 |})).
Proof.
  destruct (admitted_request_is_counted throttledPlatform samplePdf shortPdf
              {| data_text := js "hello  world"; data_numpages := 9 |}
              {| data_text := js "hello  world"; data_numpages := 5 |}
              {| Router.useWolf_ := false; Router.token := None |}
              emptyWorld) as (Hwindow & _ & t & _ & Hend).
  - repeat split; try reflexivity; vm_compute; discriminate.
  - reflexivity.
  - split; vm_compute; reflexivity.
  - split; [exact Hwindow|]. exists t. exact Hend.
Defined.

(** X11.  Failures of the gateway are internal errors with a message by
    kind: status 429 gives "Rate limit exceeded on AI service", any other
    failure of the HTTP call gives "AI service error: " followed by the
    message of the response body when there is one and by the message of
    the transport otherwise, and a response without text gives "Invalid
    response from AI service". *)
Theorem gateway_failures_are_classified
  (P : Platform) (jd cv : list byte) (djd dcv : PdfData) (cfg : Router.Config)
  (w : World) :
  documentsReadable P jd cv djd dcv ->
  Router.validateAIConfiguration (env P) = inr cfg ->
  admits (clock P) w ->
  (forall (dataMessage : option string) (message : string),
     axios_post P (requestFor P cfg djd dcv)
     = inl (AxiosError (Some 429) dataMessage message) ->
     fst (Router.analyzeCandidateMatch P jd cv w)
     = Thrown (TRPCError INTERNAL_SERVER_ERROR "Rate limit exceeded on AI service"))
  /\ (forall (status : option Z) (dataMessage : option string) (message : string),
        axios_post P (requestFor P cfg djd dcv)
        = inl (AxiosError status dataMessage message) ->
        status ≠ Some 429 ->
        fst (Router.analyzeCandidateMatch P jd cv w)
        = Thrown (TRPCError INTERNAL_SERVER_ERROR
                    ("AI service error: " +:+ or_string dataMessage message)))
  /\ (axios_post P (requestFor P cfg djd dcv) = inr None
      \/ axios_post P (requestFor P cfg djd dcv) = inr (Some []) ->
      fst (Router.analyzeCandidateMatch P jd cv w)
      = Thrown (TRPCError INTERNAL_SERVER_ERROR "Invalid response from AI service")).
Proof.
  intros (Hjd & Hcv & Hpjd & Hpcv & Htjd & Htcv) Hcfg Hadmits.
  assert (Hgate : forall (e : Exn) (w1 : World),
             AIService.analyzeCandidate P
               (AIService.constructor (env P) (Router.token cfg))
               (PDFService.cleanText (data_text dcv))
               (PDFService.cleanText (data_text djd)) (extracted w jd cv)
             = (Thrown e, w1) ->
             fst (Router.analyzeCandidateMatch P jd cv w)
             = Thrown match e with
                      | TRPCError _ _ => e
                      | _ => TRPCError INTERNAL_SERVER_ERROR
                               (message_or "Analysis failed" e)
                      end).
  { intros e w1 He.
    by rewrite (analyze_gateway_throws P jd cv djd dcv cfg e w w1). }
  split; [|split].
  - intros dataMessage message Hpost.
    erewrite Hgate; [|rewrite analyzeCandidate_gateway by done; cbv zeta;
                      fold (requestFor P cfg djd dcv); rewrite Hpost;
                      reflexivity].
    reflexivity.
  - intros status dataMessage message Hpost Hstatus.
    erewrite Hgate; [|rewrite analyzeCandidate_gateway by done; cbv zeta;
                      fold (requestFor P cfg djd dcv); rewrite Hpost;
                      reflexivity].
    simpl. by rewrite bool_decide_eq_false_2.
  - intros [Hpost|Hpost].
    + erewrite Hgate; [|rewrite analyzeCandidate_gateway by done; cbv zeta;
                        fold (requestFor P cfg djd dcv); rewrite Hpost;
                        reflexivity].
      reflexivity.
    + erewrite Hgate; [|rewrite analyzeCandidate_gateway by done; cbv zeta;
                        fold (requestFor P cfg djd dcv); rewrite Hpost;
                        reflexivity].
      reflexivity.
Qed.

Lemma gateway_failures_are_classified_witness :
  fst (Router.analyzeCandidateMatch throttledPlatform samplePdf shortPdf emptyWorld)
  = Thrown (TRPCError INTERNAL_SERVER_ERROR "Rate limit exceeded on AI service").
Proof.
  refine (proj1 (gateway_failures_are_classified throttledPlatform samplePdf
                   shortPdf
                   {| data_text := js "hello  world"; data_numpages := 9 |}
                   {| data_text := js "hello  world"; data_numpages := 5 |}
                   {| Router.useWolf_ := false; Router.token := None |}
                   emptyWorld _ _ _) None
            "Request failed with status code 429" _).
  - repeat split; try reflexivity; vm_compute; discriminate.
  - reflexivity.
  - split; vm_compute; reflexivity.
  - reflexivity.
Defined.

(** X12.  When the parser rejects one of two documents with valid
    headers, the analysis ends with an INTERNAL_SERVER_ERROR whose
    message is "Failed to extract text from PDF: " followed by the
    message of a rejection; both extractions have been started, no clock
    has been read, no window touched and no gateway call made. *)
Theorem extraction_failure_is_internal
  (P : Platform) (jd cv : list byte) (w : World) :
  PDFService.isValid (PDFService.validatePDF jd) = true ->
  PDFService.isValid (PDFService.validatePDF cv) = true ->
  (exists e : Exn, pdf P jd = inl e) \/ (exists e : Exn, pdf P cv = inl e) ->
  exists e : Exn,
    (pdf P jd = inl e \/ pdf P cv = inl e)
    /\ Router.analyzeCandidateMatch P jd cv w
       = (Thrown (TRPCError INTERNAL_SERVER_ERROR
                    ("Failed to extract text from PDF: "
                     +:+ message_or "Unknown error" e)),
          extracted w jd cv).
Proof.
  intros Hjd Hcv Hfail.
  unfold Router.analyzeCandidateMatch, try_catch, Router.analyze_try.
  rewrite Hjd, Hcv. change (negb true) with false. cbv iota.
  unfold bind at 1.
  unfold Router.extractBoth, PDFService.extractText, bind, log_call, throw, ret.
  cbv beta iota. fold (extracted w jd cv).
  destruct (pdf P jd) as [ejd|djd] eqn:Hpjd, (pdf P cv) as [ecv|dcv] eqn:Hpcv.
  - destruct (cvRejectsFirst P).
    + exists ecv. split; [by right|reflexivity].
    + exists ejd. split; [by left|reflexivity].
  - exists ejd. split; [by left|reflexivity].
  - exists ecv. split; [by right|reflexivity].
  - by destruct Hfail as [[e He]|[e He]].
Qed.

Lemma extraction_failure_is_internal_witness :
  exists e : Exn,
    (pdf unreadablePlatform samplePdf = inl e
     \/ pdf unreadablePlatform shortPdf = inl e)
    /\ Router.analyzeCandidateMatch unreadablePlatform samplePdf shortPdf emptyWorld
       = (Thrown (TRPCError INTERNAL_SERVER_ERROR
                    ("Failed to extract text from PDF: "
                     +:+ message_or "Unknown error" e)),
          extracted emptyWorld samplePdf shortPdf).
Proof.
  apply (extraction_failure_is_internal unreadablePlatform samplePdf shortPdf
           emptyWorld).
  - reflexivity.
  - reflexivity.
  - left. by eexists.
Defined.

(** X13.  A document whose extracted text is empty or consists of white
    space only is refused with a BAD_REQUEST error that names it, the job
    description being looked at first; this happens after the two
    extractions and before the configuration check, the admission check
    and the gateway call. *)
Theorem blank_document_is_bad_request
  (P : Platform) (jd cv : list byte) (djd dcv : PdfData) (w : World) :
  PDFService.isValid (PDFService.validatePDF jd) = true ->
  PDFService.isValid (PDFService.validatePDF cv) = true ->
  pdf P jd = inr djd -> pdf P cv = inr dcv ->
  ((forall c : N, c ∈ data_text djd -> JSString.isWhiteSpace c = true) ->
   Router.analyzeCandidateMatch P jd cv w
   = (Thrown (TRPCError BAD_REQUEST
                "Job description PDF contains no readable text"),
      extracted w jd cv))
  /\ ((exists c : N, c ∈ data_text djd /\ JSString.isWhiteSpace c = false) ->
      (forall c : N, c ∈ data_text dcv -> JSString.isWhiteSpace c = true) ->
      Router.analyzeCandidateMatch P jd cv w
      = (Thrown (TRPCError BAD_REQUEST "CV PDF contains no readable text"),
         extracted w jd cv)).
Proof.
  intros Hjd Hcv Hpjd Hpcv.
  assert (Hstart : Router.analyzeCandidateMatch P jd cv w
                   = try_catch
                       (if bool_decide
                             (JSString.trim (PDFService.cleanText (data_text djd)) = [])
                        then throw (TRPCError BAD_REQUEST
                                      "Job description PDF contains no readable text")
                        else if bool_decide
                                  (JSString.trim
                                     (PDFService.cleanText (data_text dcv)) = [])
                        then throw (TRPCError BAD_REQUEST
                                      "CV PDF contains no readable text")
                        else ret tt ;;; throw NonError)
                       (fun error =>
                          match error with
                          | TRPCError _ _ => throw error
                          | _ => throw (TRPCError INTERNAL_SERVER_ERROR
                                          (message_or "Analysis failed" error))
                          end)
                       (extracted w jd cv)
                   \/ (JSString.trim (PDFService.cleanText (data_text djd)) ≠ []
                       /\ JSString.trim (PDFService.cleanText (data_text dcv)) ≠ [])).
  { unfold Router.analyzeCandidateMatch, try_catch, Router.analyze_try.
    rewrite Hjd, Hcv. change (negb true) with false. cbv iota.
    unfold bind at 1.
    rewrite (extractBoth_resolved P jd cv djd dcv w Hpjd Hpcv).
    cbv iota beta. cbn [PDFService.text PDFService.pageCount].
    repeat case_bool_decide; [by left..|by right]. }
  split.
  - intros Hblank.
    apply (proj2 (cleanText_nil_iff _)) in Hblank.
    destruct Hstart as [->|[Hne _]].
    + unfold try_catch. rewrite trim_cleanText, Hblank.
      rewrite bool_decide_eq_true_2 by done. reflexivity.
    + by rewrite trim_cleanText in Hne.
  - intros (c & Hc & Hink) Hblank.
    apply (proj2 (cleanText_nil_iff _)) in Hblank.
    assert (Hjdtext : PDFService.cleanText (data_text djd) ≠ []).
    { intros Hnil.
      pose proof (proj1 (cleanText_nil_iff _) Hnil c Hc). congruence. }
    destruct Hstart as [->|[_ Hne]].
    + unfold try_catch. rewrite !trim_cleanText, Hblank.
      rewrite bool_decide_eq_false_2 by done.
      rewrite bool_decide_eq_true_2 by done. reflexivity.
    + by rewrite trim_cleanText in Hne.
Qed.

Lemma blank_document_is_bad_request_witness :
  Router.analyzeCandidateMatch blankPlatform samplePdf shortPdf emptyWorld
  = (Thrown (TRPCError BAD_REQUEST
               "Job description PDF contains no readable text"),
     extracted emptyWorld samplePdf shortPdf).
Proof.
  refine (proj1 (blank_document_is_bad_request blankPlatform samplePdf shortPdf
                   {| data_text := [32; 10; 9; 13; 160]%N; data_numpages := 1 |}
                   {| data_text := [32; 10; 9; 13; 160]%N; data_numpages := 1 |}
                   emptyWorld _ _ _ _) _).
  - reflexivity.
  - reflexivity.
  - reflexivity.
  - reflexivity.
  - intros c Hc. simpl in Hc.
    repeat (apply elem_of_cons in Hc as [->|Hc]; [reflexivity|]).
    by apply elem_of_nil in Hc.
Defined.

(** X14.  A request that passes the configuration check carries the
    credential of the environment, and in one place only: for the Wolf
    endpoint the non-empty token as a Bearer authorization and no key in
    the URL, for the Google endpoint the non-empty key as the [key]
    parameter of the URL and no authorization.  The URL is the one that
    [getConfiguration] reports for that endpoint. *)
Theorem configured_request_carries_credential
  (e : Env) (cfg : Router.Config) (prompt : jsstring) :
  Router.validateAIConfiguration e = inr cfg ->
  let request :=
    AIService.request_of (AIService.constructor e (Router.token cfg)) prompt in
  Router.useWolf_ cfg = useWolf e
  /\ Procedures.gc_currentEndpoint (Procedures.getConfiguration e)
     = (if Router.useWolf_ cfg then "Wolf" else "Google Gemini")
  /\ if useWolf e then
       exists tok : string,
         GEMINI_WOLF_AUTH_TOKEN e = Some tok /\ tok ≠ ""
         /\ post_authorization request = Some ("Bearer " +:+ tok)
         /\ post_url request
            = Procedures.gc_wolfEndpoint (Procedures.getConfiguration e)
     else
       exists key : string,
         GEMINI_API_KEY e = Some key /\ key ≠ ""
         /\ post_authorization request = None
         /\ post_url request
            = Procedures.gc_geminiEndpoint (Procedures.getConfiguration e)
              +:+ "?key=" +:+ key.
Proof.
  unfold Router.validateAIConfiguration, Procedures.getConfiguration,
    AIService.request_of, AIService.constructor, missing.
  destruct (useWolf e) eqn:Hwolf; cbn [Procedures.gc_currentEndpoint].
  - destruct (GEMINI_WOLF_AUTH_TOKEN e) as [tok|] eqn:Htok; simpl;
      [|discriminate].
    case_bool_decide as Hempty; simpl; [discriminate|].
    intros [= <-]. simpl. split; [done|]. split; [done|].
    assert (Hne : tok ≠ "") by (intros ->; by apply Hempty).
    exists tok. rewrite bool_decide_eq_false_2 by done. done.
  - destruct (GEMINI_API_KEY e) as [key|] eqn:Hkey; simpl; [|discriminate].
    case_bool_decide as Hempty; simpl; [discriminate|].
    intros [= <-]. simpl. split; [done|]. split; [done|].
    assert (Hne : key ≠ "") by (intros ->; by apply Hempty).
    exists key. rewrite bool_decide_eq_false_2 by done. done.
Qed.

Lemma configured_request_carries_credential_witness :
  exists key : string,
    GEMINI_API_KEY (env samplePlatform) = Some key /\ key ≠ ""
    /\ post_authorization
         (AIService.request_of
            (AIService.constructor (env samplePlatform) None) (js "prompt"))
       = None
    /\ post_url
         (AIService.request_of
            (AIService.constructor (env samplePlatform) None) (js "prompt"))
       = Procedures.gc_geminiEndpoint (Procedures.getConfiguration (env samplePlatform))
         +:+ "?key=" +:+ key.
Proof.
  refine (proj2 (proj2 (configured_request_carries_credential (env samplePlatform)
                          {| Router.useWolf_ := false; Router.token := None |}
                          (js "prompt") _))).
  reflexivity.
Defined.

(** X15.  The health check never throws and never changes the windows:
    it reports "healthy" exactly when the configuration check of an
    analysis passes.  When it does not, the report shows zero remaining
    requests and an error text and builds no service; when it does, the
    remaining requests are those that the limiter reports in that
    state. *)
Theorem healthCheck_reports_configuration (P : Platform) (w : World) :
  exists (timestamp : string) (configuration : Procedures.HealthConfiguration)
         (remaining : RateLimiter.Remaining)
         (service : option Procedures.CurrentConfig) (w' : World),
    Procedures.healthCheck P w
    = (Returned (Procedures.HealthReport
                   (if credentialMissing (env P)
                    then "configuration_error" else "healthy")
                   timestamp configuration remaining service), w')
    /\ windows w' = windows w /\ calls w' = calls w
    /\ (credentialMissing (env P) = false
        <-> exists cfg, Router.validateAIConfiguration (env P) = inr cfg)
    /\ Procedures.hc_authConfigured configuration
       = negb (credentialMissing (env P))
    /\ (credentialMissing (env P) = true ->
        remaining = {| RateLimiter.minute := 0; RateLimiter.hour := 0 |}
        /\ service = None
        /\ is_Some (Procedures.hc_configError configuration))
    /\ (credentialMissing (env P) = false ->
        fst (AIService.getRemainingRequests P w) = Returned remaining
        /\ is_Some service
        /\ Procedures.hc_configError configuration = None).
Proof.
  assert (Hcfg : credentialMissing (env P) = false
                 <-> exists cfg, Router.validateAIConfiguration (env P) = inr cfg).
  { unfold credentialMissing, Router.validateAIConfiguration.
    destruct (useWolf (env P)).
    - destruct (missing (GEMINI_WOLF_AUTH_TOKEN (env P)));
        split; try done; [by intros [? ?]|by eexists].
    - destruct (missing (GEMINI_API_KEY (env P)));
        split; try done; [by intros [? ?]|by eexists]. }
  unfold Procedures.healthCheck, try_catch. cbv zeta.
  fold (credentialMissing (env P)) in *.
  assert (Hvalid : (if useWolf (env P)
                    then negb (missing (GEMINI_WOLF_AUTH_TOKEN (env P)))
                    else negb (missing (GEMINI_API_KEY (env P))))
                   = negb (credentialMissing (env P))).
  { unfold credentialMissing. by destruct (useWolf (env P)). }
  rewrite !Hvalid.
  destruct (credentialMissing (env P)) eqn:Hmiss; cbn [negb].
  - unfold bind, ret, Router.now_iso, bind, RateLimiter.Date_now, ret.
    cbv beta iota.
    do 5 eexists. split; [reflexivity|]. cbn [windows calls].
    split; [done|]. split; [done|]. split; [done|]. split; [done|].
    split; [|done].
    intros _. split; [done|]. split; [done|].
    cbn [Procedures.hc_configError]. unfold Procedures.nonempty.
    by destruct (useWolf (env P)); eexists.
  - unfold bind at 1. unfold bind at 1.
    unfold AIService.getRemainingRequests.
    rewrite getRemainingRequests_unfold.
    destruct (windows w !! RateLimiter.default_identifier) as [win|] eqn:Hwin.
    + unfold bind, ret, Router.now_iso, bind, RateLimiter.Date_now, ret, at_tick.
      cbv beta iota. cbn [windows ticks calls fst].
      do 5 eexists. split; [reflexivity|]. cbn [windows calls].
      split; [done|]. split; [done|]. split; [done|]. split; [done|].
      split; [done|].
      intros _. split; [reflexivity|]. split; [by eexists|].
      cbn [Procedures.hc_configError]. by destruct (useWolf (env P)).
    + unfold bind, ret, Router.now_iso, bind, RateLimiter.Date_now, ret.
      cbv beta iota. cbn [windows ticks calls fst].
      do 5 eexists. split; [reflexivity|]. cbn [windows calls].
      split; [done|]. split; [done|]. split; [done|]. split; [done|].
      split; [done|].
      intros _. split; [reflexivity|]. split; [by eexists|].
      cbn [Procedures.hc_configError]. by destruct (useWolf (env P)).
Qed.

(** ** The route of the server *)

Section ServerFacts.
Variable P : Platform.
Variable undefinedPropertyMessage : string.

Lemma analyzeCandidateMatch_bad_header (jd cv : list byte) (w : World) :
  take 4 jd ≠ PDFService.pdfMagic
  \/ (PDFService.isValid (PDFService.validatePDF jd) = true
      /\ take 4 cv ≠ PDFService.pdfMagic) ->
  exists message : string,
    Router.analyzeCandidateMatch P jd cv w
    = (Thrown (TRPCError BAD_REQUEST message), w)
    /\ includes "Invalid PDF format" message = true.
Proof.
  assert (Hbad : forall b : list byte,
             take 4 b ≠ PDFService.pdfMagic ->
             PDFService.validatePDF b
             = {| PDFService.isValid := false;
                  PDFService.error := Some "Invalid PDF format" |}).
  { intros b Hb. unfold PDFService.validatePDF. by rewrite bool_decide_eq_true_2. }
  unfold Router.analyzeCandidateMatch, try_catch, Router.analyze_try.
  intros [Hjd|[Hjd Hcv]].
  - rewrite (Hbad jd Hjd). eexists. split; reflexivity.
  - rewrite Hjd, (Hbad cv Hcv). eexists. split; reflexivity.
Qed.

End ServerFacts.

(** X16.  The route always answers and never throws: with status 200
    and the result of the analysis, or with status 400 or 500 and an
    error text.  A request for which the upload middleware recorded no
    files at all is answered 500 with the message of the engine, without
    any other effect. *)
Theorem apiAnalyze_always_answers
  (P : Platform) (undefinedPropertyMessage : string)
  (files : option Server.Files) (w : World) :
  (exists (response : Server.HttpResponse) (w' : World),
     Server.apiAnalyze P undefinedPropertyMessage files w = (Returned response, w')
     /\ (Server.status response = 200
         /\ (exists result, Server.body response = Server.ResultBody result)
         \/ (Server.status response = 400 \/ Server.status response = 500)
            /\ exists message, Server.body response = Server.ErrorBody message))
  /\ Server.apiAnalyze P undefinedPropertyMessage None w
     = (Returned {| Server.status := 500;
                    Server.body := Server.ErrorBody undefinedPropertyMessage |}, w).
Proof.
  split; [|reflexivity].
  unfold Server.apiAnalyze, try_catch.
  destruct files as [fs|].
  - destruct (Server.jobDescription fs) as [|jf jr], (Server.cv fs) as [|cf cr];
      try (eexists; eexists; split; [reflexivity|]; right; simpl;
           split; [by left|by eexists]).
    unfold bind.
    destruct (Router.analyzeCandidateMatch P (Server.buffer jf) (Server.buffer cf) w)
      as [[result|e] w1].
    + eexists; eexists. split; [reflexivity|]. left. simpl.
      split; [done|by eexists].
    + eexists; eexists. split; [reflexivity|]. right. simpl.
      split; [|by eexists].
      unfold Server.statusCode. destruct e as [| [|] | |]; auto.
  - eexists; eexists. split; [reflexivity|]. right. simpl.
    split; [by right|by eexists].
Qed.

(** X17.  Bad uploads are answered 400 before anything is started: a
    missing job description or CV gives the text "Both jobDescription
    and cv PDF files are required", and a first file of either field
    whose bytes do not start with %PDF gives a text that contains
    "Invalid PDF format"; in both cases no extraction and no gateway call
    is made and no quota is used. *)
Theorem bad_upload_is_answered_400
  (P : Platform) (undefinedPropertyMessage : string) (fs : Server.Files)
  (w : World) :
  (Server.jobDescription fs = [] \/ Server.cv fs = [] ->
   Server.apiAnalyze P undefinedPropertyMessage (Some fs) w
   = (Returned {| Server.status := 400;
                  Server.body :=
                    Server.ErrorBody
                      "Both jobDescription and cv PDF files are required" |}, w))
  /\ (forall (jf cf : Server.UploadedFile) (jr cr : list Server.UploadedFile),
        Server.jobDescription fs = jf :: jr -> Server.cv fs = cf :: cr ->
        take 4 (Server.buffer jf) ≠ PDFService.pdfMagic
        \/ (PDFService.isValid (PDFService.validatePDF (Server.buffer jf)) = true
            /\ take 4 (Server.buffer cf) ≠ PDFService.pdfMagic) ->
        exists message : string,
          Server.apiAnalyze P undefinedPropertyMessage (Some fs) w
          = (Returned {| Server.status := 400;
                         Server.body := Server.ErrorBody message |}, w)
          /\ includes "Invalid PDF format" message = true).
Proof.
  split.
  - unfold Server.apiAnalyze, try_catch.
    intros [Hjd|Hcv].
    + by rewrite Hjd.
    + rewrite Hcv. by destruct (Server.jobDescription fs).
  - intros jf cf jr cr Hjd Hcv Hbad.
    destruct (analyzeCandidateMatch_bad_header P (Server.buffer jf)
                (Server.buffer cf) w Hbad) as (message & Hcall & Hincl).
    exists message. split; [|done].
    unfold Server.apiAnalyze, try_catch. rewrite Hjd, Hcv.
    unfold bind. rewrite Hcall. reflexivity.
Qed.

Lemma bad_upload_is_answered_400_witness :
  exists message : string,
    Server.apiAnalyze samplePlatform "Cannot read properties of undefined"
      (Some {| Server.jobDescription :=
                 [{| Server.buffer := fakePdf;
                     Server.originalname := "job.pdf";
                     Server.mimetype := "application/pdf" |}];
               Server.cv :=
                 [{| Server.buffer := fakePdf;
                     Server.originalname := "cv.pdf";
                     Server.mimetype := "application/pdf" |}] |})
      emptyWorld
    = (Returned {| Server.status := 400;
                   Server.body := Server.ErrorBody message |}, emptyWorld)
    /\ includes "Invalid PDF format" message = true.
Proof.
  refine (proj2 (bad_upload_is_answered_400 samplePlatform
                   "Cannot read properties of undefined" _ emptyWorld)
            _ _ [] [] _ _ _).
  - reflexivity.
  - reflexivity.
  - left. discriminate.
Defined.

(** ** More on the normalisation of the reply *)

Section NormalisationMore.
Import JSString JSON AIService.

Lemma dropWhile_split {A} (p : A -> bool) (l : list A) (x : A) (r : list A) :
  dropWhile p l = x :: r ->
  exists pre : list A,
    l = pre ++ x :: r /\ (forall y, y ∈ pre -> p y = true) /\ p x = false.
Proof.
  induction l as [|y l IH]; [done|]. simpl.
  destruct (p y) eqn:Hy.
  - intros Hd. destruct (IH Hd) as (pre & -> & Hpre & Hx).
    exists (y :: pre). split; [done|]. split; [|done].
    intros z Hz. apply elem_of_cons in Hz as [->|Hz]; [done|by apply Hpre].
  - intros [= -> ->]. exists []. split; [done|]. split; [|done].
    intros z Hz. by apply elem_of_nil in Hz.
Qed.

Lemma code_absent (c : N) (l : jsstring) :
  (forall y, y ∈ l -> negb (y =? c)%N = true) -> c ∉ l.
Proof.
  intros Hall Hin. specialize (Hall c Hin).
  by rewrite N.eqb_refl in Hall.
Qed.

Lemma parseAIResponse_by_jsonString (P : Platform) (r1 r2 : jsstring) :
  jsonString r1 = jsonString r2 ->
  parseAIResponse P r1 = parseAIResponse P r2.
Proof.
  intros Heq. unfold parseAIResponse, parseAIResponse_try. cbv zeta.
  fold (jsonString r1). fold (jsonString r2). by rewrite Heq.
Qed.

End NormalisationMore.

(** X18.  The brace match is exactly the stretch from the first opening
    brace to the last closing brace: a match cuts the reply into a part
    without opening brace, the match, and a part without closing brace;
    and there is no match only when the reply has no opening brace or no
    closing brace after the first opening one. *)
Theorem matchBraces_is_first_to_last (response : jsstring) :
  (forall m : jsstring,
     AIService.matchBraces response = Some m ->
     exists before inner after : jsstring,
       response = before ++ [123%N] ++ inner ++ [125%N] ++ after
       /\ (123%N ∉ before) /\ (125%N ∉ after)
       /\ m = [123%N] ++ inner ++ [125%N])
  /\ (AIService.matchBraces response = None ->
      123%N ∉ response
      \/ exists before after : jsstring,
           response = before ++ [123%N] ++ after
           /\ (123%N ∉ before) /\ (125%N ∉ after)).
Proof.
  unfold AIService.matchBraces.
  destruct (JSString.dropWhile _ response) as [|open after] eqn:Hopen.
  - split; [done|]. intros _. left.
    clear -Hopen. induction response as [|x r IH]; [apply not_elem_of_nil|].
    simpl in Hopen. destruct (negb (x =? 123)%N) eqn:Hx; [|done].
    apply not_elem_of_cons. split; [|by apply IH].
    intros <-. by rewrite N.eqb_refl in Hx.
  - apply dropWhile_split in Hopen as (before & -> & Hbefore & Hx).
    apply negb_false_iff, N.eqb_eq in Hx as ->.
    apply code_absent in Hbefore.
    destruct (JSString.dropWhile _ (reverse after)) as [|close inner_rev] eqn:Hclose.
    + split; [done|]. intros _. right. exists before, after.
      split; [done|]. split; [done|].
      clear -Hclose. intros Hin. rewrite <- elem_of_reverse in Hin.
      induction (reverse after) as [|x r IH]; [by apply elem_of_nil in Hin|].
      simpl in Hclose. destruct (negb (x =? 125)%N) eqn:Hx; [|done].
      apply elem_of_cons in Hin as [<-|Hin]; [by rewrite N.eqb_refl in Hx|].
      by apply IH.
    + split; [|done]. intros m [= <-].
      apply dropWhile_split in Hclose as (tail_rev & Hrev & Htail & Hx).
      apply negb_false_iff, N.eqb_eq in Hx as ->.
      apply code_absent in Htail.
      exists before, (reverse inner_rev), (reverse tail_rev).
      split; [|split; [done|split; [|done]]].
      * cbn [app]. do 2 f_equal.
        rewrite <- (reverse_involutive after), Hrev.
        rewrite reverse_app, reverse_cons, <- app_assoc. done.
      * intros Hin. rewrite elem_of_reverse in Hin. done.
Qed.

(** X19.  Text around the object does not matter: a reply made of text
    without opening brace, an object text, and text without closing
    brace is normalised, to a result or to an error, exactly as the
    object text alone. *)
Theorem commentary_is_ignored
  (P : Platform) (before inner after : jsstring) :
  123%N ∉ before -> 125%N ∉ after ->
  AIService.parseAIResponse P (before ++ [123%N] ++ inner ++ [125%N] ++ after)
  = AIService.parseAIResponse P ([123%N] ++ inner ++ [125%N]).
Proof.
  intros Hbefore Hafter. apply parseAIResponse_by_jsonString.
  unfold jsonString. rewrite matchBraces_found by done.
  pose proof (matchBraces_found [] inner []) as Hself.
  rewrite app_nil_l in Hself.
  replace ([123%N] ++ inner ++ [125%N] ++ []) with ([123%N] ++ inner ++ [125%N])
    in Hself by (by rewrite app_nil_r).
  rewrite Hself; [done|apply not_elem_of_nil..].
Qed.

Lemma commentary_is_ignored_witness :
  AIService.parseAIResponse samplePlatform
    (js "Sure: " ++ [123%N]
     ++ (JSString.quoted "overallMatch" ++ js ": 85") ++ [125%N] ++ js " Done.")
  = AIService.parseAIResponse samplePlatform
      ([123%N] ++ (JSString.quoted "overallMatch" ++ js ": 85") ++ [125%N]).
Proof.
  apply (commentary_is_ignored samplePlatform (js "Sure: ") _ (js " Done.")).
  - vm_compute. intros Hin. by repeat (apply elem_of_cons in Hin as [?|Hin];
      [discriminate|]); apply elem_of_nil in Hin.
  - vm_compute. intros Hin. by repeat (apply elem_of_cons in Hin as [?|Hin];
      [discriminate|]); apply elem_of_nil in Hin.
Defined.




(** ** The rounding of number literals *)

(** The values that [JSON.parse] gives to some literals: the double
    nearest to one tenth; 0 for a literal below half the least
    subnormal; an infinity beyond the largest double; 100 for a literal
    within half a unit in the last place of it; the even neighbour for a
    tie. *)
Example binary64_examples :
  JSON.parse (js "0.1")
  = Some (JSON.Num (JSON.Finite (3602879701896397 # 36028797018963968)))
  /\ JSON.parse (js "1e-400") = Some (JSON.Num (JSON.Finite 0))
  /\ JSON.parse (js "-1e400") = Some (JSON.Num (JSON.Infinite true))
  /\ JSON.parse (js "99.99999999999999999") = Some (JSON.Num (JSON.Finite 100))
  /\ JSON.parse (js "9007199254740993")
     = Some (JSON.Num (JSON.Finite 9007199254740992))
  /\ JSON.parse (js "9007199254740995")
     = Some (JSON.Num (JSON.Finite 9007199254740996)).
Proof. repeat split; vm_compute; reflexivity. Qed.

(** A reply whose numbers are out of the range of a double: an
    [overallMatch] beyond the largest double is clamped to 100, and a
    summary below the least one is 0, which is falsy, and gives way to
    the placeholder. *)
Example parseAIResponse_rounded_literals (P : Platform) :
  AIService.parseAIResponse P
    (js "{" ++ JSString.quoted "overallMatch" ++ js ": 1e400, "
     ++ JSString.quoted "summary" ++ js ": 1e-400}")
  = inr {| AIService.overallMatch := JSON.Finite 100;
           AIService.strengths := [];
           AIService.weaknesses := [];
           AIService.recommendations := [];
           AIService.keyAlignments := [];
           AIService.missingSkills := [];
           AIService.summary := JSON.Str (js "Analysis completed") |}.
Proof. vm_compute. reflexivity. Qed.
